(** * ANBIMA bond pipeline: token cache, daily fetch loop, volatility

    A shallow embedding of [main.py]: the class [anbima_api]
    ([generate_token], [get_data_by_date]), the function [volatility] and
    the orchestration [main], together with the properties the
    specification states about them.

    The script leans on four libraries.  Their behaviour is embedded as far
    as the script exercises it:
    - numpy/pandas float64 arithmetic is idealised as the extended reals
      with a not-a-number element ([Np.float]); rounding, overflow and the
      sign of zero are not modelled;
    - a pandas [DataFrame] is a list of column labels and a list of rows;
    - [json] values are the usual tree, numbers being rationals;
    - a [bizdays] calendar is a bounded range of day ordinals with a
      business-day predicate. *)

From Stdlib Require Import ZArith QArith Reals Lra Lia List String Bool Sorted.
From stdpp Require Import base option gmap strings.
Import ListNotations.

Local Open Scope string_scope.

(** ** Python exceptions the script can raise *)

Inductive exn : Type :=
| NameError (name : string)
| UnboundLocalError (name : string)
| KeyError (key : string)
| TypeError
| AttributeError
| JSONDecodeError
| ValueError
| IndexError
| TokenRequestFailed (status_code : Z) (text : string)
    (* Exception(f"Failed to generate token: {status_code} {text}") *)
| TokenNotGenerated
    (* Exception("Token is not generated. Call generate_token() first.") *)
| DataRequestFailed (status_code : Z) (text : string).
    (* Exception(f"Failed to fetch data: {status_code} {text}") *)

Inductive result (A : Type) : Type :=
| Ok (a : A)
| Raise (e : exn).
Arguments Ok {A} a.
Arguments Raise {A} e.

Definition rbind {A B} (m : result A) (k : A -> result B) : result B :=
  match m with
  | Ok a => k a
  | Raise e => Raise e
  end.

#[global] Instance result_ret : MRet result := @Ok.
#[global] Instance result_bind : MBind result := fun A B k m => rbind m k.

(** ** numpy: float64 values *)

Module Np.

Local Open Scope R_scope.

Inductive float : Type :=
| NaN
| NInf
| PInf
| Fin (x : R).

Definition isnan (a : float) : bool :=
  match a with NaN => true | _ => false end.

Definition neg (a : float) : float :=
  match a with
  | NaN => NaN
  | NInf => PInf
  | PInf => NInf
  | Fin x => Fin (- x)
  end.

Definition add (a b : float) : float :=
  match a, b with
  | NaN, _ | _, NaN => NaN
  | PInf, NInf | NInf, PInf => NaN
  | PInf, _ | _, PInf => PInf
  | NInf, _ | _, NInf => NInf
  | Fin x, Fin y => Fin (x + y)
  end.

Definition sub (a b : float) : float := add a (neg b).

(** Sign of a finite value: [Lt] negative, [Eq] zero, [Gt] positive. *)
Definition sgn (x : R) : comparison :=
  match total_order_T x 0 with
  | inleft (left _) => Lt
  | inleft (right _) => Eq
  | inright _ => Gt
  end.

Definition inf_of (c : comparison) : float :=
  match c with Lt => NInf | Eq => NaN | Gt => PInf end.

Definition flip (c : comparison) : comparison :=
  match c with Lt => Gt | Eq => Eq | Gt => Lt end.

Definition mul (a b : float) : float :=
  match a, b with
  | NaN, _ | _, NaN => NaN
  | PInf, PInf | NInf, NInf => PInf
  | PInf, NInf | NInf, PInf => NInf
  | PInf, Fin y | Fin y, PInf => inf_of (sgn y)
  | NInf, Fin y | Fin y, NInf => inf_of (flip (sgn y))
  | Fin x, Fin y => Fin (x * y)
  end.

(** Array division: a zero divisor gives an infinity (or NaN for 0/0),
    not an exception. *)
Definition div (a b : float) : float :=
  match a, b with
  | NaN, _ | _, NaN => NaN
  | (PInf | NInf), (PInf | NInf) => NaN
  | Fin _, (PInf | NInf) => Fin 0
  | PInf, Fin y => match sgn y with Lt => NInf | _ => PInf end
  | NInf, Fin y => match sgn y with Lt => PInf | _ => NInf end
  | Fin x, Fin y =>
      match sgn y with
      | Eq => inf_of (sgn x)
      | _ => Fin (x / y)
      end
  end.

(** [np.log] *)
Definition log (a : float) : float :=
  match a with
  | NaN | NInf => NaN
  | PInf => PInf
  | Fin x => match sgn x with
             | Lt => NaN
             | Eq => NInf
             | Gt => Fin (ln x)
             end
  end.

(** [np.sqrt] *)
Definition sqrt (a : float) : float :=
  match a with
  | NaN | NInf => NaN
  | PInf => PInf
  | Fin x => match sgn x with
             | Lt => NaN
             | _ => Fin (R_sqrt.sqrt x)
             end
  end.

Definition of_nat (n : nat) : float := Fin (INR n).

Definition sum (l : list float) : float := fold_left add l (Fin 0).

End Np.

(** ** pandas: Series of floats *)

Module Pd.

(** [Series.diff()]: first element NaN, then each value minus its
    predecessor. *)
Fixpoint diff_from (prev : Np.float) (l : list Np.float) : list Np.float :=
  match l with
  | [] => []
  | x :: xs => Np.sub x prev :: diff_from x xs
  end.

Definition diff (l : list Np.float) : list Np.float :=
  match l with
  | [] => []
  | x :: xs => Np.NaN :: diff_from x xs
  end.

(** [nanops.nanvar]: NaN entries are masked; with [count <= ddof] the
    result is NaN. *)
Definition putmask0 (l : list Np.float) : list Np.float :=
  map (fun v => if Np.isnan v then Np.Fin 0 else v) l.

Definition count_valid (l : list Np.float) : nat :=
  length (List.filter (fun v => negb (Np.isnan v)) l).

Definition nanvar (ddof : nat) (values : list Np.float) : Np.float :=
  let count := count_valid values in
  if (count <=? ddof)%nat then Np.NaN
  else
    let avg := Np.div (Np.sum (putmask0 values)) (Np.of_nat count) in
    let sqr :=
      map (fun v => if Np.isnan v then Np.Fin 0
                    else let d := Np.sub avg v in Np.mul d d) values in
    Np.div (Np.sum sqr) (Np.of_nat (count - ddof)).

(** [Series.std()], default [ddof=1], [skipna=True]. *)
Definition std (values : list Np.float) : Np.float :=
  Np.sqrt (nanvar 1 values).

End Pd.

(** ** pandas: the market-record table

    One row per vendor record.  The script reads three vendor fields and
    writes [data_referencia]; the vendor sends [tipo_titulo] and
    [data_vencimento] as strings (so [str(maturity)] is the maturity
    itself) and [taxa_indicativa] as a number, held here as the float that
    [.astype(float)] yields for it. *)

Record Row : Type := mkRow {
  tipo_titulo : string;
  data_vencimento : string;
  taxa_indicativa : Np.float;
  data_referencia : string
}.

Record DataFrame : Type := mkDataFrame {
  columns : list string;
  rows : list Row
}.

Definition record_columns : list string :=
  ["tipo_titulo"; "data_vencimento"; "taxa_indicativa"; "data_referencia"].

(** [pd.DataFrame(data)] for a list of records: the columns are the keys
    of the records, so an empty list gives a frame without columns. *)
Definition DataFrame_of_records (data : list Row) : DataFrame :=
  {| columns := match data with [] => [] | _ :: _ => record_columns end;
     rows := data |}.

Definition has_column (df : DataFrame) (label : string) : bool :=
  existsb (String.eqb label) (columns df).

(** [df[label]] raises KeyError for a label that is not a column. *)
Definition require_column (df : DataFrame) (label : string) : result unit :=
  if has_column df label then Ok tt else Raise (KeyError label).

Definition with_data_referencia (value : string) (r : Row) : Row :=
  {| tipo_titulo := tipo_titulo r;
     data_vencimento := data_vencimento r;
     taxa_indicativa := taxa_indicativa r;
     data_referencia := value |}.

(** [df['data_referencia'] = value]: sets the column in every row and adds
    the label when it is new. *)
Definition set_data_referencia (value : string) (df : DataFrame) : DataFrame :=
  {| columns := if has_column df "data_referencia" then columns df
                else columns df ++ ["data_referencia"];
     rows := map (with_data_referencia value) (rows df) |}.

(** [pd.concat([a, b], ignore_index=True)]: rows of [a] then rows of [b];
    the columns are the union, in order of first appearance. *)
Definition concat (a b : DataFrame) : DataFrame :=
  {| columns := columns a ++
                List.filter (fun c => negb (has_column a c)) (columns b);
     rows := rows a ++ rows b |}.

(** [Series.unique()]: distinct values in order of first appearance. *)
Fixpoint unique (l : list string) : list string :=
  match l with
  | [] => []
  | x :: xs => x :: List.filter (fun y => negb (String.eqb y x)) (unique xs)
  end.

(** Frames in which every row has all its cells: a frame that has rows has
    the record columns. *)
Definition frame_ok (df : DataFrame) : Prop :=
  rows df <> [] -> forall c, In c record_columns -> has_column df c = true.

(** ** [volatility] *)

(** [np.log(1 + x / 100)] *)
Definition log_factor (x : Np.float) : Np.float :=
  Np.log (Np.add (Np.Fin 1) (Np.div x (Np.Fin 100))).

(** The right-hand side of the loop body:
    [float(df.query("data_vencimento == @maturity")['taxa_indicativa']
       .astype(float).apply(...).diff().std() * np.sqrt(252))]. *)
Definition maturity_volatility (df : DataFrame) (maturity : string)
  : result Np.float :=
  let queried :=
    List.filter (fun r => String.eqb (data_vencimento r) maturity) (rows df) in
  _ ← require_column df "taxa_indicativa";
  let series := map taxa_indicativa queried in
  Ok (Np.mul (Pd.std (Pd.diff (map log_factor series)))
             (Np.sqrt (Np.Fin 252))).

(** The value the loop stores for one maturity, when the rate column is
    there. *)
Definition stored_value (df : DataFrame) (maturity : string) : Np.float :=
  Np.mul
    (Pd.std (Pd.diff (map log_factor (map taxa_indicativa
       (List.filter (fun r => String.eqb (data_vencimento r) maturity)
                    (rows df))))))
    (Np.sqrt (Np.Fin 252)).

Fixpoint volatility_loop (df : DataFrame) (maturities : list string)
    (sigma : gmap string Np.float) : result (gmap string Np.float) :=
  match maturities with
  | [] => Ok sigma
  | maturity :: rest =>
      v ← maturity_volatility df maturity;
      volatility_loop df rest (<[maturity := v]> sigma)
  end.

Definition volatility (df : DataFrame) (asset_tp : string)
  : result (gmap string Np.float) :=
  _ ← require_column df "tipo_titulo";
  let df := {| columns := columns df;
               rows := List.filter
                         (fun r => String.eqb (tipo_titulo r) asset_tp)
                         (rows df) |} in
  _ ← require_column df "data_vencimento";
  volatility_loop df (unique (map data_vencimento (rows df))) ∅.

(** The observations of one maturity among the rows of one instrument
    type. *)
Definition maturity_group (df : DataFrame) (asset_tp maturity : string)
  : list Row :=
  List.filter (fun r => String.eqb (data_vencimento r) maturity)
    (List.filter (fun r => String.eqb (tipo_titulo r) asset_tp) (rows df)).

(** The table of the two-observation scenario: rates 5.0 and 5.1 for one
    maturity and one instrument type on two reference dates. *)
Definition two_rate_table (asset_tp maturity day1 day2 : string) : DataFrame :=
  DataFrame_of_records
    [ mkRow asset_tp maturity (Np.Fin 5) day1;
      mkRow asset_tp maturity (Np.Fin (51 / 10)) day2 ].

(** The frame [main] has assembled after one fetch that returned an empty
    array. *)
Definition empty_fetch_table (datetime_str : string) : DataFrame :=
  set_data_referencia datetime_str (DataFrame_of_records []).

(** ** json values and the Python operations the script applies to them *)

#[local] Unset Elimination Schemes.
Inductive json : Type :=
| JNull                                   (* None *)
| JBool (b : bool)
| JNum (q : Q)
| JStr (s : string)
| JList (l : list json)
| JObj (fields : list (string * json)).   (* dict, keys in insertion order *)
#[local] Set Elimination Schemes.

Fixpoint dict_lookup (k : string) (d : list (string * json)) : option json :=
  match d with
  | [] => None
  | (k', v) :: rest => if String.eqb k k' then Some v else dict_lookup k rest
  end.

(** [d[k] = v]: replaces the value in place, or appends a new key. *)
Fixpoint dict_store (k : string) (v : json) (d : list (string * json))
  : list (string * json) :=
  match d with
  | [] => [(k, v)]
  | (k', v') :: rest =>
      if String.eqb k k' then (k', v) :: rest
      else (k', v') :: dict_store k v rest
  end.

(** [obj[k]] with a string key: KeyError on a dict without the key,
    TypeError on anything that is not a dict. *)
Definition getitem (obj : json) (k : string) : result json :=
  match obj with
  | JObj d => match dict_lookup k d with
              | Some v => Ok v
              | None => Raise (KeyError k)
              end
  | _ => Raise TypeError
  end.

(** [obj.get(k, default)]: only dicts have [get]. *)
Definition get (obj : json) (k : string) (default : json) : result json :=
  match obj with
  | JObj d => Ok (match dict_lookup k d with
                  | Some v => v
                  | None => default
                  end)
  | _ => Raise AttributeError
  end.

(** [obj[k] = v] with a string key. *)
Definition setitem (obj : json) (k : string) (v : json) : result json :=
  match obj with
  | JObj d => Ok (JObj (dict_store k v d))
  | _ => Raise TypeError
  end.

(** Truth value of an object in a condition. *)
Definition truthy (v : json) : bool :=
  match v with
  | JNull => false
  | JBool b => b
  | JNum q => negb (Qeq_bool q 0)
  | JStr s => negb (String.eqb s "")
  | JList l => match l with [] => false | _ => true end
  | JObj d => match d with [] => false | _ => true end
  end.

(** The number an object stands for in arithmetic and comparisons with a
    float; TypeError for the others. *)
Definition as_number (v : json) : result Q :=
  match v with
  | JNum q => Ok q
  | JBool b => Ok (if b then 1%Q else 0%Q)
  | _ => Raise TypeError
  end.

Definition Qltb (a b : Q) : bool := negb (Qle_bool b a).

(** ** The world around the script *)

(** A file holds a json document or something [json.load] rejects. *)
Inductive file : Type :=
| Garbage
| Doc (content : json).

Record response (A : Type) : Type := mkResponse {
  status_code : Z;
  text : string;
  body : option A     (* [response.json()]; None when the body is not json *)
}.
Arguments mkResponse {A} _ _ _.
Arguments status_code {A} _.
Arguments text {A} _.
Arguments body {A} _.

(** [response.json()] of the data endpoint: an array of records or a
    single record. *)
Inductive payload : Type :=
| PList (records : list Row)
| PObject (record : Row).

Inductive event : Type :=
| Post (url : string) (user password : json)
| HttpGet (url : string) (client_id access_token : string)
| FileWrite (path : string) (content : json)
| Print (sigma : gmap string Np.float).

Record World : Type := mkWorld {
  fs : gmap string file;                 (* the files on disk *)
  global_client_id : option json;        (* module global; None = undefined *)
  trace : list event                     (* effects so far, oldest first *)
}.

(** What the outside answers: the two clock readings of [generate_token],
    the day [main] runs on (days since 1970-01-01) and the two endpoints. *)
Record Env : Type := mkEnv {
  utcnow_check : Q;     (* [datetime.utcnow().timestamp()] in the try block *)
  utcnow_save : Q;      (* ... when the new expiry is computed *)
  today : Z;            (* [datetime.today()], as a day number *)
  token_endpoint : response json;
  data_endpoint : string -> response payload    (* by request URL *)
}.

Definition emit (e : event) (w : World) : World :=
  {| fs := fs w; global_client_id := global_client_id w;
     trace := trace w ++ [e] |}.

Definition set_global_client_id (v : json) (w : World) : World :=
  {| fs := fs w; global_client_id := Some v; trace := trace w |}.

Definition write_file (path : string) (content : json) (w : World) : World :=
  emit (FileWrite path content)
       {| fs := <[path := Doc content]> (fs w);
          global_client_id := global_client_id w;
          trace := trace w |}.

(** ** class [anbima_api] *)

Record anbima_api : Type := mk_anbima_api {
  token_file : string;
  token : json          (* [self.token]; JNull is None *)
}.

Definition init (token_file : string) : anbima_api :=
  {| token_file := token_file; token := JNull |}.

Definition set_token (v : json) (self : anbima_api) : anbima_api :=
  {| token_file := token_file self; token := v |}.

(** Local variables of [generate_token] that outlive the try block;
    None is an unbound name. *)
Record Locals : Type := mkLocals {
  credentials : option json;
  client_secret : option json
}.

Inductive cache_outcome : Type :=
| Reuse (access_token : json)     (* [self.token = access_token; return] *)
| Refresh.                        (* fell out of the try block *)

Definition token_url : string := "https://api.anbima.com.br/oauth/access-token".

(** The try block of [generate_token].  Every exception raised inside is
    swallowed by [except Exception: pass]; what was assigned before the
    exception stays assigned. *)
Definition try_reuse (env : Env) (self : anbima_api) (w : World)
  : World * Locals * cache_outcome :=
  match fs w !! token_file self with
  | None => (w, mkLocals None None, Refresh)            (* open() raises *)
  | Some Garbage => (w, mkLocals None None, Refresh)    (* json.load raises *)
  | Some (Doc creds) =>
      match getitem creds "client_id" with
      | Raise _ => (w, mkLocals (Some creds) None, Refresh)
      | Ok cid =>
          let w := set_global_client_id cid w in
          match getitem creds "client_secret" with
          | Raise _ => (w, mkLocals (Some creds) None, Refresh)
          | Ok secret =>
              let locals := mkLocals (Some creds) (Some secret) in
              match
                token_info ← get creds "token_info" (JObj []);
                access_token ← get token_info "access_token" JNull;
                expires_at ← get token_info "expires_at" JNull;
                let now := utcnow_check env in
                if truthy access_token && truthy expires_at then
                  e ← as_number expires_at;
                  Ok (if Qltb now e then Reuse access_token else Refresh)
                else Ok Refresh
              with
              | Ok outcome => (w, locals, outcome)
              | Raise _ => (w, locals, Refresh)
              end
          end
      end
  end.

Definition is_200_or_201 (status : Z) : bool :=
  (status =? 200)%Z || (status =? 201)%Z.

(** [generate_token]: the object and the world after the call, and whether
    the call returned or raised. *)
Definition generate_token (env : Env) (self : anbima_api) (w : World)
  : anbima_api * World * result unit :=
  let '(w, locals, outcome) := try_reuse env self w in
  match outcome with
  | Reuse access_token => (set_token access_token self, w, Ok tt)
  | Refresh =>
      (* requests.post(..., auth=(client_id, client_secret)) *)
      match global_client_id w with
      | None => (self, w, Raise (NameError "client_id"))
      | Some cid =>
      match client_secret locals with
      | None => (self, w, Raise (UnboundLocalError "client_secret"))
      | Some secret =>
          let w := emit (Post token_url cid secret) w in
          let response := token_endpoint env in
          if is_200_or_201 (status_code response) then
            match body response with
            | None => (self, w, Raise JSONDecodeError)
            | Some data =>
            match get data "access_token" JNull with
            | Raise e => (self, w, Raise e)
            | Ok tok =>
                let self := set_token tok self in
                match
                  expires_in ← get data "expires_in" (JNum 3600);
                  n ← as_number expires_in;
                  let token_info :=
                    JObj [("access_token", token self);
                          ("expires_at", JNum (utcnow_save env + n - 60))] in
                  match credentials locals with
                  | None => Raise (UnboundLocalError "credentials")
                  | Some creds => setitem creds "token_info" token_info
                  end
                with
                | Raise e => (self, w, Raise e)
                | Ok creds =>
                    (self, write_file (token_file self) creds w, Ok tt)
                end
            end
            end
          else
            (self, w,
             Raise (TokenRequestFailed (status_code response) (text response)))
      end
      end
  end.

Definition is_str (v : json) : option string :=
  match v with JStr s => Some s | _ => None end.

(** [get_data_by_date].  [requests] refuses a header value that is not a
    string (InvalidHeader, a ValueError) before anything is sent. *)
Definition get_data_by_date (env : Env) (self : anbima_api) (w : World)
    (url date : string) : World * result payload :=
  if negb (truthy (token self)) then (w, Raise TokenNotGenerated)
  else
    match global_client_id w with
    | None => (w, Raise (NameError "client_id"))
    | Some cid =>
        let url_request := url ++ "?data=" ++ date in
        match is_str cid, is_str (token self) with
        | Some cid, Some tok =>
            let w := emit (HttpGet url_request cid tok) w in
            let response := data_endpoint env url_request in
            if (status_code response =? 200)%Z then
              match body response with
              | Some data => (w, Ok data)
              | None => (w, Raise JSONDecodeError)
              end
            else
              (w, Raise (DataRequestFailed (status_code response)
                                           (text response)))
        | _, _ => (w, Raise ValueError)
        end
    end.

(** ** Dates: [strftime('%Y-%m-%d')] of a day number *)

Module Date.

Local Open Scope Z_scope.

(** Year, month and day of the day numbered [z] (0 is 1970-01-01) in the
    proleptic Gregorian calendar. *)
Definition civil (z : Z) : Z * Z * Z :=
  let z := z + 719468 in
  let era := z / 146097 in
  let doe := z - era * 146097 in
  let yoe := (doe - doe / 1460 + doe / 36524 - doe / 146096) / 365 in
  let doy := doe - (365 * yoe + yoe / 4 - yoe / 100) in
  let mp := (5 * doy + 2) / 153 in
  let d := doy - (153 * mp + 2) / 5 + 1 in
  let m := if mp <? 10 then mp + 3 else mp - 9 in
  let y := yoe + era * 400 in
  (if m <=? 2 then y + 1 else y, m, d).

Definition digit (n : Z) : string :=
  String (Ascii.ascii_of_nat (48 + Z.to_nat (n mod 10))) EmptyString.

Definition pad2 (n : Z) : string := (digit (n / 10) ++ digit n)%string.

Definition pad4 (n : Z) : string := (pad2 (n / 100) ++ pad2 n)%string.

Definition strftime (z : Z) : string :=
  let '(y, m, d) := civil z in
  (pad4 y ++ "-" ++ pad2 m ++ "-" ++ pad2 d)%string.

(** Monday is 0, Sunday is 6. *)
Definition weekday (z : Z) : Z := (z + 3) mod 7.

End Date.

(** ** bizdays: a business-day calendar *)

Module Bizdays.

Local Open Scope Z_scope.

Record Calendar : Type := mkCalendar {
  startdate : Z;
  enddate : Z;
  holidays : list Z;
  nonwork_weekdays : list Z
}.

Definition isbizday (cal : Calendar) (d : Z) : bool :=
  negb (existsb (Z.eqb (Date.weekday d)) (nonwork_weekdays cal))
  && negb (existsb (Z.eqb d) (holidays cal)).

(** The days [a], [a+1], ..., [b]. *)
Definition days (a b : Z) : list Z :=
  map (fun i => a + Z.of_nat i) (List.seq 0 (Z.to_nat (b - a + 1))).

Definition bizdays_between (cal : Calendar) (a b : Z) : list Z :=
  List.filter (isbizday cal) (days a b).

Definition in_bounds (cal : Calendar) (d : Z) : bool :=
  (startdate cal <=? d) && (d <=? enddate cal).

(** [cal.seq(date_from, date_to)]: the business days between the two
    dates, both included; in reverse when [date_from] is the later one. *)
Definition seq (cal : Calendar) (date_from date_to : Z) : result (list Z) :=
  if in_bounds cal date_from && in_bounds cal date_to then
    if date_from <=? date_to
    then Ok (bizdays_between cal date_from date_to)
    else Ok (rev (bizdays_between cal date_to date_from))
  else Raise ValueError.

(** Python's [l[i]]: a negative index counts from the end of the list. *)
Definition py_index {A : Type} (l : list A) (i : Z) : option A :=
  if 0 <=? i then nth_error l (Z.to_nat i)
  else if - Z.of_nat (length l) <=? i
       then nth_error l (Z.to_nat (Z.of_nat (length l) + i))
       else None.

(** [cal.offset(date, n)]: the date has a position in the calendar's list
    of business days, its own when it is a business day and that of the
    next business day when it is not (the number of business days before
    it); the result is the business day at that position moved by [n].
    The list is indexed as Python indexes, so a position before the start
    of the calendar counts from its end. *)
Definition offset (cal : Calendar) (date : Z) (n : Z) : result Z :=
  if in_bounds cal date then
    let bizdays := bizdays_between cal (startdate cal) (enddate cal) in
    let position :=
      Z.of_nat (length (bizdays_between cal (startdate cal) (date - 1))) in
    match py_index bizdays (position + n) with
    | Some d => Ok d
    | None => Raise IndexError
    end
  else Raise ValueError.

End Bizdays.

(** ** [main] *)

Definition url_request : string :=
  "https://api-sandbox.anbima.com.br/feed/precos-indices/v1/titulos-publicos/mercado-secundario-TPF".

(** [cal.seq(cal.offset(datetime.today(), -bdays_range), datetime.today())] *)
Definition dates_in_range (cal : Bizdays.Calendar) (today : Z)
    (bdays_range : Z) : result (list Z) :=
  start ← Bizdays.offset cal today (- bdays_range);
  Bizdays.seq cal start today.

Definition records_of (data : payload) : list Row :=
  match data with
  | PList records => records        (* isinstance(data, list) *)
  | PObject record => [record]
  end.

(** The body of the for loop, from the second line on, for the fetched
    [data]; [result_df] is None while the name is not in [locals()]. *)
Definition assemble (datetime_str : string) (data : payload)
    (result_df : option DataFrame) : DataFrame :=
  let df := DataFrame_of_records (records_of data) in
  let df := set_data_referencia datetime_str df in
  match result_df with
  | None => df
  | Some acc => concat acc df
  end.

Fixpoint fetch_loop (env : Env) (api : anbima_api) (dates : list Z)
    (result_df : option DataFrame) (w : World)
  : World * result (option DataFrame) :=
  match dates with
  | [] => (w, Ok result_df)
  | date :: rest =>
      let datetime_str := Date.strftime date in
      match get_data_by_date env api w url_request datetime_str with
      | (w, Raise e) => (w, Raise e)
      | (w, Ok data) =>
          fetch_loop env api rest
                     (Some (assemble datetime_str data result_df)) w
      end
  end.

(** [main()], with the module globals [cal], [bdays_range] and
    [token_file] as arguments. *)
Definition main (env : Env) (cal : Bizdays.Calendar) (bdays_range : Z)
    (token_file : string) (w : World) : World * result unit :=
  let api := init token_file in
  match generate_token env api w with
  | (_, w, Raise e) => (w, Raise e)
  | (api, w, Ok _) =>
      match dates_in_range cal (today env) bdays_range with
      | Raise e => (w, Raise e)
      | Ok dates =>
          match fetch_loop env api dates None w with
          | (w, Raise e) => (w, Raise e)
          | (w, Ok None) => (w, Raise (UnboundLocalError "result_df"))
          | (w, Ok (Some result_df)) =>
              match volatility result_df "LTN" with
              | Raise e => (w, Raise e)
              | Ok result => (emit (Print result) w, Ok tt)
              end
          end
      end
  end.

(** The script as run: [bdays_range = 10], [token_file =
    'anbimaAuth.json'], and the calendar that [Calendar.load("ANBIMA")]
    gives. *)
Definition script (env : Env) (anbima : Bizdays.Calendar) (w : World)
  : World * result unit :=
  main env anbima 10 "anbimaAuth.json" w.

(** Events of a trace that are requests to the data endpoint. *)
Definition requested_urls (tr : list event) : list string :=
  flat_map (fun e => match e with
                     | HttpGet url _ _ => [url]
                     | _ => []
                     end) tr.

Definition is_network (e : event) : bool :=
  match e with Post _ _ _ | HttpGet _ _ _ => true | _ => false end.

Definition is_write (e : event) : bool :=
  match e with FileWrite _ _ => true | _ => false end.

Definition is_print (e : event) : bool :=
  match e with Print _ => true | _ => false end.

(** ** Vocabulary of the statements *)

(** A credentials dict whose cached token is absent or expired at time
    [now]: no [token_info], or a [token_info] dict without [access_token]
    or without [expires_at], or one whose [expires_at] is a number not
    after [now]. *)
Inductive cache_stale (now : Q) (creds : list (string * json)) : Prop :=
| stale_no_token_info :
    dict_lookup "token_info" creds = None -> cache_stale now creds
| stale_no_access_token info :
    dict_lookup "token_info" creds = Some (JObj info) ->
    dict_lookup "access_token" info = None ->
    cache_stale now creds
| stale_no_expires_at info :
    dict_lookup "token_info" creds = Some (JObj info) ->
    dict_lookup "expires_at" info = None ->
    cache_stale now creds
| stale_expired info e :
    dict_lookup "token_info" creds = Some (JObj info) ->
    dict_lookup "expires_at" info = Some (JNum e) ->
    (e <= now)%Q ->
    cache_stale now creds.

(** The lifetime a token response states: its [expires_in] number, or 3600
    when the field is absent. *)
Inductive stated_lifetime (data : list (string * json)) (n : Q) : Prop :=
| lifetime_default :
    dict_lookup "expires_in" data = None -> n = 3600%Q ->
    stated_lifetime data n
| lifetime_given :
    dict_lookup "expires_in" data = Some (JNum n) ->
    stated_lifetime data n.

(** The URL [get_data_by_date] requests for a day. *)
Definition url_for (date : Z) : string :=
  url_request ++ "?data=" ++ Date.strftime date.

(** The rows a fetched day contributes to the table. *)
Definition rows_for (date : Z) (data : payload) : list Row :=
  map (with_data_referencia (Date.strftime date)) (records_of data).

(** The rows assembled so far; none while [result_df] is unbound. *)
Definition table_rows (result_df : option DataFrame) : list Row :=
  match result_df with
  | None => []
  | Some df => rows df
  end.

(** The requests to the data endpoint for a list of days, in order. *)
Definition sent (cid tok : string) (dates : list Z) : list event :=
  map (fun d => HttpGet (url_for d) cid tok) dates.

(** ** Sample data for the examples *)

Definition fresh_world : World :=
  {| fs := ∅; global_client_id := None; trace := [] |}.

Definition sample_credentials (token_info : list (string * json))
  : list (string * json) :=
  [("client_id", JStr "my-id"); ("client_secret", JStr "my-secret");
   ("token_info", JObj token_info)].

Definition world_with (creds : list (string * json)) : World :=
  {| fs := {[ "anbimaAuth.json" := Doc (JObj creds) ]};
     global_client_id := None;
     trace := [] |}.

Definition sample_row (asset_tp maturity : string) (rate : R) : Row :=
  mkRow asset_tp maturity (Np.Fin rate) "".

(** A data endpoint that answers three days with 2, 0 and 3 records and
    every other request with 404. *)
Definition sample_data_endpoint (url : string) : response payload :=
  if String.eqb url (url_for 19724) then
    mkResponse 200 "[...]"
      (Some (PList [sample_row "LTN" "2030-01-01" 5;
                    sample_row "NTN-B" "2035-05-15" 6]))
  else if String.eqb url (url_for 19725) then
    mkResponse 200 "[]" (Some (PList []))
  else if String.eqb url (url_for 19726) then
    mkResponse 200 "[...]"
      (Some (PList [sample_row "LTN" "2030-01-01" (51 / 10);
                    sample_row "LTN" "2027-07-01" 4;
                    sample_row "NTN-B" "2035-05-15" 6]))
  else mkResponse 404 "Not Found" None.

Definition sample_payload (date : Z) : payload :=
  match body (sample_data_endpoint (url_for date)) with
  | Some data => data
  | None => PList []
  end.

Definition sample_env (now : Q) (today : Z) (token_response : response json)
  : Env :=
  {| utcnow_check := now; utcnow_save := now; today := today;
     token_endpoint := token_response;
     data_endpoint := sample_data_endpoint |}.

(** A data endpoint that answers every day with an empty array. *)
Definition empty_data_endpoint (url : string) : response payload :=
  mkResponse 200 "[]" (Some (PList [])).

Definition sample_api : anbima_api :=
  {| token_file := "anbimaAuth.json"; token := JStr "cached-token" |}.

(** A calendar for examples: 2024-01-01 (day 19723, a Monday) to
    2024-03-01, Saturdays and Sundays off, no holidays. *)
Definition sample_calendar : Bizdays.Calendar :=
  {| Bizdays.startdate := 19723;
     Bizdays.enddate := 19783;
     Bizdays.holidays := [];
     Bizdays.nonwork_weekdays := [5; 6]%Z |}.

(** Further sample data. *)

Definition sample_cached : list (string * json) :=
  sample_credentials [("access_token", JStr "cached-token");
                      ("expires_at", JNum 2000)].

Definition sample_token_answer : response json :=
  mkResponse 200 "{...}"
    (Some (JObj [("access_token", JStr "fresh-token");
                 ("expires_in", JNum 1800)])).

Definition world_of_doc (doc : json) : World :=
  {| fs := {[ "anbimaAuth.json" := Doc doc ]};
     global_client_id := None;
     trace := [] |}.

Definition broken_credentials : list (string * json) :=
  [("client_id", JStr "my-id"); ("client_secret", JStr "my-secret");
   ("token_info", JStr "oops")].

Definition empty_env (now : Q) (today : Z) : Env :=
  {| utcnow_check := now; utcnow_save := now; today := today;
     token_endpoint := mkResponse 200 "" None;
     data_endpoint := empty_data_endpoint |}.

(** Two frames with the same LTN observations, other rows and reference
    dates differing. *)
Definition sample_frame_a : DataFrame :=
  DataFrame_of_records
    [mkRow "LTN" "2030-01-01" (Np.Fin 5) "2024-01-02";
     mkRow "NTN-B" "2035-05-15" (Np.Fin 6) "2024-01-02";
     mkRow "LTN" "2030-01-01" (Np.Fin 4) "2024-01-03"].

Definition sample_frame_b : DataFrame :=
  DataFrame_of_records
    [mkRow "LTN" "2030-01-01" (Np.Fin 5) "2024-02-01";
     mkRow "LTN" "2030-01-01" (Np.Fin 4) "2024-01-01";
     mkRow "LFT" "2029-03-01" (Np.Fin 1) "2024-01-03"].

Definition static_table : DataFrame :=
  DataFrame_of_records
    [mkRow "LTN" "2030-01-01" (Np.Fin 5) "2024-01-02";
     mkRow "LTN" "2030-01-01" (Np.Fin 5) "2024-01-03";
     mkRow "LTN" "2030-01-01" (Np.Fin 5) "2024-01-04";
     mkRow "LTN" "2030-01-01" (Np.Fin 5) "2024-01-05"].

(** What the specification asks of the rows one day contributes: the
    records of an array in the order received, or the single record of an
    object, each with its reference date set to the day's tag.  Written
    from the specification's words, to compare the loop of [main] with. *)
Definition tagged (tag : string) (record : Row) : Row :=
  mkRow (tipo_titulo record) (data_vencimento record)
        (taxa_indicativa record) tag.

Definition expected_rows (tag : string) (data : payload) : list Row :=
  match data with
  | PList records => map (tagged tag) records
  | PObject record => [tagged tag record]
  end.

(** A data endpoint that answers like [sample_data_endpoint] and, for one
    more day, with a single object instead of an array. *)
Definition object_data_endpoint (url : string) : response payload :=
  if String.eqb url (url_for 19727) then
    mkResponse 200 "{...}"
      (Some (PObject (sample_row "LFT" "2029-03-01" 1)))
  else sample_data_endpoint url.

Definition object_payload (date : Z) : payload :=
  match body (object_data_endpoint (url_for date)) with
  | Some data => data
  | None => PList []
  end.

(** ** Vocabulary of the further statements *)

(** How one call of [generate_token] can end, with the events it added to
    the trace: it returns after no event (the cache was reused) or after
    the token request and the write of the token file; it raises after no
    event or after the token request alone. *)
Inductive token_effects (path : string) : result unit -> list event -> Prop :=
| effects_reused : token_effects path (Ok tt) []
| effects_refreshed url user password content :
    token_effects path (Ok tt)
      [Post url user password; FileWrite path content]
| effects_not_sent e : token_effects path (Raise e) []
| effects_sent url user password e :
    token_effects path (Raise e) [Post url user password].

(** A credentials dict whose cache entry makes the try block raise after
    the client fields were read: [token_info] is not a dict, or its
    [expires_at] is neither a number nor a truth value. *)
Inductive cache_broken (creds : list (string * json)) : Prop :=
| broken_token_info v :
    dict_lookup "token_info" creds = Some v ->
    get v "access_token" JNull = Raise AttributeError ->
    cache_broken creds
| broken_expires_at info v :
    dict_lookup "token_info" creds = Some (JObj info) ->
    dict_lookup "expires_at" info = Some v ->
    as_number v = Raise TypeError ->
    cache_broken creds.

(** The cells of a row that [volatility] reads. *)
Definition observation (r : Row) : string * string * Np.float :=
  (tipo_titulo r, data_vencimento r, taxa_indicativa r).

(** * Properties *)

(** ** The volatility calculator *)

Lemma unique_In (x : string) (l : list string) : In x (unique l) <-> In x l.
Proof.
  induction l as [|y l IH]; simpl; [tauto|].
  rewrite filter_In, IH, negb_true_iff.
  destruct (String.eqb_spec x y) as [->|Hne]; [tauto|].
  split; [tauto|intros [->|H]; [congruence|tauto]].
Qed.

Lemma maturity_volatility_ok (df : DataFrame) (m : string) :
  has_column df "taxa_indicativa" = true ->
  maturity_volatility df m = Ok (stored_value df m).
Proof.
  intros H. unfold maturity_volatility, require_column. rewrite H. reflexivity.
Qed.

Lemma volatility_loop_ok (df : DataFrame) (ms : list string) :
  has_column df "taxa_indicativa" = true ->
  forall sigma : gmap string Np.float,
  exists sigma' : gmap string Np.float,
    volatility_loop df ms sigma = Ok sigma' /\
    forall m, sigma' !! m =
              if existsb (String.eqb m) ms then Some (stored_value df m)
              else sigma !! m.
Proof.
  intros Hc. induction ms as [|m0 ms IH]; intros sigma; simpl.
  - exists sigma. split; [reflexivity|]. reflexivity.
  - rewrite (maturity_volatility_ok df m0 Hc). simpl.
    destruct (IH (<[m0 := stored_value df m0]> sigma)) as (s' & Hs' & Hl).
    exists s'. split; [exact Hs'|].
    intros m. rewrite Hl.
    destruct (existsb (String.eqb m) ms) eqn:Hex.
    + rewrite orb_true_r. reflexivity.
    + rewrite orb_false_r.
      destruct (String.eqb_spec m m0) as [->|Hne].
      * apply lookup_insert_eq.
      * apply lookup_insert_ne. congruence.
Qed.

Lemma volatility_loop_nil (df : DataFrame) (sigma : gmap string Np.float) :
  volatility_loop df [] sigma = Ok sigma.
Proof. reflexivity. Qed.

Lemma existsb_eqb_In (m : string) (l : list string) :
  existsb (String.eqb m) l = true <-> In m l.
Proof.
  rewrite existsb_exists. split.
  - intros (x & Hx & He). apply String.eqb_eq in He. congruence.
  - intros H. exists m. split; [exact H|apply String.eqb_refl].
Qed.

(** A series with at most two values has at most one defined difference,
    and its standard deviation is NaN. *)
Lemma std_diff_short (l : list Np.float) :
  (length l <= 2)%nat -> Pd.std (Pd.diff l) = Np.NaN.
Proof.
  intros H. destruct l as [|a [|b [|c l]]]; simpl in H; try lia.
  - reflexivity.
  - reflexivity.
  - unfold Pd.std, Pd.nanvar, Pd.count_valid. simpl.
    destruct (Np.isnan (Np.sub b a)); reflexivity.
Qed.

Lemma stored_value_short (df : DataFrame) (m : string) :
  (length (List.filter (fun r => String.eqb (data_vencimento r) m) (rows df))
   <= 2)%nat ->
  stored_value df m = Np.NaN.
Proof.
  intros H. unfold stored_value.
  rewrite std_diff_short; [reflexivity|].
  rewrite !length_map. exact H.
Qed.

Lemma existsb_unique (m : string) (l : list string) :
  existsb (String.eqb m) (unique l) = existsb (String.eqb m) l.
Proof.
  apply eq_true_iff_eq. rewrite !existsb_eqb_In. apply unique_In.
Qed.

Lemma has_column_rows (df : DataFrame) (rs : list Row) (c : string) :
  has_column {| columns := columns df; rows := rs |} c = has_column df c.
Proof. reflexivity. Qed.

Lemma volatility_with_columns (df : DataFrame) (asset_tp : string) :
  has_column df "tipo_titulo" = true ->
  has_column df "data_vencimento" = true ->
  has_column df "taxa_indicativa" = true ->
  exists sigma : gmap string Np.float,
    volatility df asset_tp = Ok sigma /\
    forall m,
      sigma !! m =
      if existsb (String.eqb m)
           (map data_vencimento
              (List.filter (fun r => String.eqb (tipo_titulo r) asset_tp)
                           (rows df)))
      then Some (Np.mul
                   (Pd.std (Pd.diff (map log_factor (map taxa_indicativa
                      (maturity_group df asset_tp m)))))
                   (Np.sqrt (Np.Fin 252)))
      else None.
Proof.
  intros H1 H2 H3. unfold volatility, require_column.
  rewrite H1. simpl. rewrite has_column_rows, H2. simpl.
  set (df' := {| columns := columns df; rows := _ |}).
  destruct (volatility_loop_ok df' (unique (map data_vencimento (rows df')))
              H3 ∅) as (sigma & Hs & Hl).
  exists sigma. split; [exact Hs|].
  intros m. rewrite Hl, lookup_empty, existsb_unique. reflexivity.
Qed.

(** C9, as amended: on a table that has the instrument-type and maturity
    columns, if no row's instrument type equals the requested one,
    [volatility] returns the empty mapping. *)
Theorem volatility_no_match_empty (df : DataFrame) (asset_tp : string) :
  has_column df "tipo_titulo" = true ->
  has_column df "data_vencimento" = true ->
  (forall r, In r (rows df) -> tipo_titulo r <> asset_tp) ->
  volatility df asset_tp = Ok ∅.
Proof.
  intros H1 H2 Hno. unfold volatility, require_column.
  rewrite H1. simpl. rewrite has_column_rows, H2. simpl.
  replace (List.filter _ (rows df)) with (@nil Row); [reflexivity|].
  symmetry. induction (rows df) as [|r l IH]; [reflexivity|]. simpl.
  destruct (String.eqb_spec (tipo_titulo r) asset_tp) as [E|_].
  - exfalso. apply (Hno r); [left; reflexivity|exact E].
  - apply IH. intros r' Hr'. apply Hno. right. exact Hr'.
Qed.

Lemma volatility_no_match_empty_witness :
  volatility
    (DataFrame_of_records
       [mkRow "NTN-B" "2030-08-15" (Np.Fin 6) "2024-01-02"]) "LTN" = Ok ∅.
Proof.
  apply volatility_no_match_empty; [reflexivity|reflexivity|].
  intros r [<-|[]]. simpl. discriminate.
Defined.

(** C9, as stated, fails on the frame assembled from an empty fetch: it has
    no row at all, hence none of the requested type, and [volatility]
    raises KeyError instead of returning the empty mapping. *)
Lemma volatility_no_match_counterexample :
  (forall r, In r (rows (empty_fetch_table "2024-01-02")) ->
             tipo_titulo r <> "LTN") /\
  volatility (empty_fetch_table "2024-01-02") "LTN"
    = Raise (KeyError "tipo_titulo") /\
  volatility (empty_fetch_table "2024-01-02") "LTN" <> Ok ∅.
Proof.
  split; [intros r []|]. split; [reflexivity|discriminate].
Qed.

(** C5: a maturity that has exactly one observation among the rows of the
    requested type (a group of fewer than two) is stored with the value
    NaN: the call returns, the key is present, and the value is neither
    zero nor any other number. *)
Theorem volatility_single_observation_nan
    (df : DataFrame) (asset_tp maturity : string) :
  frame_ok df ->
  maturity_group df asset_tp maturity <> [] ->
  (length (maturity_group df asset_tp maturity) < 2)%nat ->
  exists sigma : gmap string Np.float,
    volatility df asset_tp = Ok sigma /\
    sigma !! maturity = Some Np.NaN /\
    sigma !! maturity <> Some (Np.Fin 0).
Proof.
  intros Hok Hne Hlen.
  assert (Hrows : rows df <> []).
  { intros E. apply Hne. unfold maturity_group. rewrite E. reflexivity. }
  destruct (volatility_with_columns df asset_tp) as (sigma & Hs & Hl).
  1-3: apply Hok; [exact Hrows|simpl; tauto].
  exists sigma. split; [exact Hs|].
  assert (Hv : sigma !! maturity = Some Np.NaN).
  { rewrite Hl.
    destruct (existsb _ _) eqn:E.
    - rewrite std_diff_short; [reflexivity|]. rewrite !length_map. lia.
    - exfalso. apply Hne. unfold maturity_group.
      destruct (List.filter _ (List.filter _ _)) as [|r l] eqn:F;
        [reflexivity|].
      assert (Hin : In r (r :: l)) by (left; reflexivity).
      rewrite <- F in Hin. apply filter_In in Hin. destruct Hin as [Hin Hm].
      apply String.eqb_eq in Hm.
      assert (existsb (String.eqb maturity)
                (map data_vencimento
                   (List.filter (fun r => String.eqb (tipo_titulo r) asset_tp)
                      (rows df))) = true) as Hex.
      { apply existsb_eqb_In. rewrite <- Hm. apply in_map. exact Hin. }
      congruence. }
  split; [exact Hv|]. rewrite Hv. discriminate.
Qed.

Lemma volatility_single_observation_nan_witness :
  exists sigma : gmap string Np.float,
    volatility
      (DataFrame_of_records
         [mkRow "LTN" "2030-01-01" (Np.Fin 5) "2024-01-02"]) "LTN" = Ok sigma /\
    sigma !! "2030-01-01" = Some Np.NaN /\
    sigma !! "2030-01-01" <> Some (Np.Fin 0).
Proof.
  apply volatility_single_observation_nan.
  - intros _ c Hc. simpl in Hc.
    destruct Hc as [<-|[<-|[<-|[<-|[]]]]]; reflexivity.
  - discriminate.
  - simpl. lia.
Defined.

Lemma two_rate_table_volatility (asset_tp maturity day1 day2 : string) :
  volatility (two_rate_table asset_tp maturity day1 day2) asset_tp
  = Ok {[ maturity := Np.NaN ]}.
Proof.
  destruct (volatility_with_columns
              (two_rate_table asset_tp maturity day1 day2) asset_tp)
    as (sigma & Hs & Hl); try reflexivity.
  rewrite Hs. f_equal. apply map_eq. intros m. rewrite Hl.
  unfold maturity_group, two_rate_table, DataFrame_of_records.
  cbn [rows List.filter tipo_titulo].
  rewrite !String.eqb_refl.
  cbn [map data_vencimento existsb List.filter].
  rewrite orb_false_r, orb_diag.
  destruct (String.eqb_spec m maturity) as [->|Hne].
  - rewrite lookup_singleton_eq, std_diff_short; [reflexivity|].
    rewrite !length_map. rewrite String.eqb_refl. simpl. lia.
  - rewrite lookup_singleton_ne by congruence. reflexivity.
Qed.

(** C1, as amended: for the table of two rows that share maturity M and
    instrument type T, with rates 5.0 and 5.1 on two reference dates,
    [volatility] returns the mapping whose only key is M, and the value
    under M is NaN: the differenced series has a single defined value, and
    the standard deviation with the N-1 denominator is undefined for it. *)
Theorem volatility_two_rows_nan (asset_tp maturity day1 day2 : string) :
  volatility (two_rate_table asset_tp maturity day1 day2) asset_tp
  = Ok {[ maturity := Np.NaN ]}.
Proof. apply two_rate_table_volatility. Qed.

(** C1, as stated, fails: the value stored under M is not
    [|ln 1.051 - ln 1.05| * sqrt 252]. *)
Lemma volatility_two_rows_counterexample :
  ~ exists sigma : gmap string Np.float,
      volatility (two_rate_table "LTN" "2030-01-01" "2024-01-02" "2024-01-03")
                 "LTN" = Ok sigma /\
      sigma !! "2030-01-01"
      = Some (Np.Fin (Rabs (ln (1051 / 1000) - ln (105 / 100))
                      * sqrt 252)).
Proof.
  intros (sigma & Hs & Hv).
  rewrite two_rate_table_volatility in Hs. injection Hs as <-.
  rewrite lookup_singleton_eq in Hv. discriminate.
Qed.

(** ** Frames built by the script *)

(** [frame_ok] holds of every frame the script builds. *)
Lemma frame_ok_of_records (data : list Row) :
  frame_ok (DataFrame_of_records data).
Proof.
  intros Hne c Hc. destruct data as [|r data]; [contradiction|].
  simpl in Hc. destruct Hc as [<-|[<-|[<-|[<-|[]]]]]; reflexivity.
Qed.

Lemma has_column_set_data_referencia (value : string) (df : DataFrame)
    (c : string) :
  has_column df c = true ->
  has_column (set_data_referencia value df) c = true.
Proof.
  intros H. unfold set_data_referencia, has_column at 1. simpl.
  destruct (has_column df "data_referencia"); [exact H|].
  rewrite existsb_app. unfold has_column in H. rewrite H. reflexivity.
Qed.

Lemma frame_ok_set_data_referencia (value : string) (df : DataFrame) :
  frame_ok df -> frame_ok (set_data_referencia value df).
Proof.
  intros Hok Hne c Hc. apply has_column_set_data_referencia, Hok; [|exact Hc].
  intros E. apply Hne. simpl. rewrite E. reflexivity.
Qed.

Lemma has_column_concat (a b : DataFrame) (c : string) :
  has_column (concat a b) c = has_column a c || has_column b c.
Proof.
  unfold concat, has_column at 1. simpl. rewrite existsb_app.
  fold (has_column a c).
  destruct (has_column a c) eqn:Ha; [reflexivity|]. simpl.
  unfold has_column at 2. induction (columns b) as [|x l IH]; [reflexivity|].
  simpl. destruct (String.eqb_spec c x) as [<-|Hne].
  - rewrite Ha. simpl. rewrite String.eqb_refl. reflexivity.
  - destruct (has_column a x); simpl; [exact IH|].
    destruct (String.eqb_spec c x); [contradiction|exact IH].
Qed.

Lemma frame_ok_concat (a b : DataFrame) :
  frame_ok a -> frame_ok b -> frame_ok (concat a b).
Proof.
  intros Ha Hb Hne c Hc. rewrite has_column_concat. simpl in Hne.
  destruct (rows a) as [|r l] eqn:Ea.
  - rewrite (Hb Hne c Hc). apply orb_true_r.
  - rewrite (Ha ltac:(rewrite Ea; discriminate) c Hc). reflexivity.
Qed.

Lemma frame_ok_assemble (datetime_str : string) (data : payload)
    (acc : option DataFrame) :
  (forall df, acc = Some df -> frame_ok df) ->
  frame_ok (assemble datetime_str data acc).
Proof.
  intros Hacc. unfold assemble.
  pose proof (frame_ok_set_data_referencia datetime_str _
                (frame_ok_of_records (records_of data))) as Hnew.
  destruct acc as [df|]; [|exact Hnew].
  apply frame_ok_concat; [apply Hacc; reflexivity|exact Hnew].
Qed.

(** ** A defined volatility *)

Section StaticRates.

Local Open Scope R_scope.

Lemma sgn_pos (x : R) : 0 < x -> Np.sgn x = Gt.
Proof.
  intros H. unfold Np.sgn.
  destruct (total_order_T x 0) as [[Hlt|Heq]|Hgt]; [lra|lra|reflexivity].
Qed.

Lemma sgn_zero (x : R) : x = 0 -> Np.sgn x = Eq.
Proof.
  intros H. unfold Np.sgn.
  destruct (total_order_T x 0) as [[Hlt|Heq]|Hgt]; [lra|reflexivity|lra].
Qed.

Lemma div_fin_pos (a b : R) :
  0 < b -> Np.div (Np.Fin a) (Np.Fin b) = Np.Fin (a / b).
Proof. intros H. unfold Np.div. rewrite sgn_pos by exact H. reflexivity. Qed.

(** Three equal observations: both differences are zero and so is the
    standard deviation. *)
Lemma std_diff_constant (x : R) :
  Pd.std (Pd.diff [Np.Fin x; Np.Fin x; Np.Fin x]) = Np.Fin 0.
Proof.
  assert (Hd : Pd.diff [Np.Fin x; Np.Fin x; Np.Fin x]
               = [Np.NaN; Np.Fin 0; Np.Fin 0]).
  { cbn [Pd.diff Pd.diff_from Np.sub Np.neg Np.add].
    replace (x + - x) with 0 by ring. reflexivity. }
  rewrite Hd.
  unfold Pd.std, Pd.nanvar, Pd.count_valid, Pd.putmask0, Np.sum, Np.of_nat.
  cbn [List.filter map Np.isnan negb length Nat.leb Nat.sub fold_left Np.add].
  rewrite !(div_fin_pos _ (INR 2)) by (simpl; lra).
  cbn [Np.sub Np.neg Np.add Np.mul fold_left].
  rewrite div_fin_pos by (simpl; lra).
  set (v := _ / INR 1).
  assert (Hv : v = 0) by (subst v; simpl; lra).
  unfold Np.sqrt. rewrite Hv, (sgn_zero 0), sqrt_0 by reflexivity.
  reflexivity.
Qed.

(** With the same rate on three days the volatility is zero, as the
    module docstring says of static data. *)
Lemma volatility_static_rates_zero (asset_tp maturity d1 d2 d3 : string) :
  volatility
    (DataFrame_of_records
       [mkRow asset_tp maturity (Np.Fin 5) d1;
        mkRow asset_tp maturity (Np.Fin 5) d2;
        mkRow asset_tp maturity (Np.Fin 5) d3]) asset_tp
  = Ok {[ maturity := Np.Fin 0 ]}.
Proof.
  destruct (volatility_with_columns
              (DataFrame_of_records
                 [mkRow asset_tp maturity (Np.Fin 5) d1;
                  mkRow asset_tp maturity (Np.Fin 5) d2;
                  mkRow asset_tp maturity (Np.Fin 5) d3]) asset_tp)
    as (sigma & Hs & Hl); try reflexivity.
  rewrite Hs. f_equal. apply map_eq. intros m. rewrite Hl.
  unfold maturity_group, DataFrame_of_records.
  cbn [rows List.filter tipo_titulo].
  rewrite !String.eqb_refl.
  cbn [map data_vencimento existsb List.filter].
  rewrite orb_false_r, !orb_diag.
  destruct (String.eqb_spec m maturity) as [->|Hne].
  - rewrite lookup_singleton_eq, String.eqb_refl.
    cbn [map taxa_indicativa].
    assert (log_factor (Np.Fin 5) = Np.Fin (ln (1 + 5 / 100))) as ->.
    { unfold log_factor, Np.div. rewrite (sgn_pos 100) by lra.
      cbn [Np.add]. unfold Np.log. rewrite sgn_pos by lra. reflexivity. }
    rewrite std_diff_constant. unfold Np.sqrt.
    rewrite (sgn_pos 252) by lra. cbn [Np.mul].
    do 2 f_equal. ring.
  - rewrite lookup_singleton_ne by congruence. reflexivity.
Qed.

End StaticRates.

(** ** The business-day sequence *)

Section Calendar.

Local Open Scope Z_scope.

Lemma days_In (a b d : Z) : In d (Bizdays.days a b) <-> a <= d <= b.
Proof.
  unfold Bizdays.days. rewrite in_map_iff. split.
  - intros (i & <- & Hi). apply in_seq in Hi. lia.
  - intros H. exists (Z.to_nat (d - a)). split; [lia|].
    apply in_seq. lia.
Qed.

Lemma seq_sorted (s n : nat) : StronglySorted Nat.lt (List.seq s n).
Proof.
  revert s. induction n as [|n IH]; intros s; simpl; constructor.
  - apply IH.
  - apply List.Forall_forall. intros x Hx. apply in_seq in Hx. lia.
Qed.

Lemma StronglySorted_map {A B} (RA : A -> A -> Prop) (RB : B -> B -> Prop)
    (f : A -> B) (l : list A) :
  (forall x y, RA x y -> RB (f x) (f y)) ->
  StronglySorted RA l -> StronglySorted RB (map f l).
Proof.
  intros Hf. induction 1 as [|x l Hs IH Hall]; simpl; constructor.
  - exact IH.
  - rewrite List.Forall_forall in *. intros y Hy.
    apply in_map_iff in Hy. destruct Hy as (z & <- & Hz). auto.
Qed.

Lemma StronglySorted_filter {A} (R : A -> A -> Prop) (p : A -> bool)
    (l : list A) :
  StronglySorted R l -> StronglySorted R (List.filter p l).
Proof.
  induction 1 as [|x l Hs IH Hall]; simpl; [constructor|].
  destruct (p x); [|exact IH]. constructor; [exact IH|].
  rewrite List.Forall_forall in *. intros y Hy. apply filter_In in Hy.
  apply Hall. tauto.
Qed.

Lemma StronglySorted_lt_NoDup (l : list Z) :
  StronglySorted Z.lt l -> List.NoDup l.
Proof.
  induction 1 as [|x l Hs IH Hall]; constructor; [|exact IH].
  intros Hin. rewrite List.Forall_forall in Hall. specialize (Hall x Hin). lia.
Qed.

Lemma days_sorted (a b : Z) : StronglySorted Z.lt (Bizdays.days a b).
Proof.
  unfold Bizdays.days.
  apply (StronglySorted_map Nat.lt); [intros; lia|apply seq_sorted].
Qed.

Lemma bizdays_between_sorted (cal : Bizdays.Calendar) (a b : Z) :
  StronglySorted Z.lt (Bizdays.bizdays_between cal a b).
Proof. apply StronglySorted_filter, days_sorted. Qed.

Lemma bizdays_between_In (cal : Bizdays.Calendar) (a b d : Z) :
  In d (Bizdays.bizdays_between cal a b)
  <-> a <= d <= b /\ Bizdays.isbizday cal d = true.
Proof. unfold Bizdays.bizdays_between. rewrite filter_In, days_In. tauto. Qed.

(** The last element of an ascending list is its greatest. *)
Lemma sorted_last_max (l : list Z) (d x : Z) :
  StronglySorted Z.lt l -> last l = Some d -> In x l -> x <= d.
Proof.
  intros Hs. revert x.
  induction Hs as [|y l Hs IH Hall]; intros x Hl Hin; [destruct Hin|].
  destruct l as [|z l'].
  - destruct Hin as [<-|[]]. simpl in Hl. injection Hl as <-. lia.
  - rewrite last_cons_cons in Hl.
    destruct Hin as [<-|Hin]; [|apply IH; assumption].
    rewrite List.Forall_forall in Hall.
    assert (y < z) by (apply Hall; left; reflexivity).
    assert (z <= d) by (apply IH; [exact Hl|left; reflexivity]). lia.
Qed.

Lemma last_Some_In (l : list Z) (d : Z) : last l = Some d -> In d l.
Proof.
  intros H. apply last_Some in H. destruct H as (l' & ->).
  apply in_app_iff. right. left. reflexivity.
Qed.

Lemma filter_all_false {A} (f : A -> bool) (l : list A) :
  (forall x, In x l -> f x = false) -> List.filter f l = [].
Proof.
  induction l as [|x l IH]; intros H; [reflexivity|]. simpl.
  rewrite (H x (or_introl eq_refl)). apply IH. intros y Hy. apply H.
  right. exact Hy.
Qed.

Lemma map_seq_from {B} (f : nat -> B) (k n : nat) :
  map f (List.seq k n) = map (fun i => f (k + i)%nat) (List.seq 0 n).
Proof.
  revert f. induction k as [|k IH]; intros f; [reflexivity|].
  rewrite <- seq_shift, map_map, IH. reflexivity.
Qed.

Lemma days_split (a c b : Z) :
  a <= c <= b + 1 ->
  Bizdays.days a b = (Bizdays.days a (c - 1) ++ Bizdays.days c b)%list.
Proof.
  intros H. unfold Bizdays.days.
  replace (Z.to_nat (b - a + 1))
    with (Z.to_nat (c - 1 - a + 1) + Z.to_nat (b - c + 1))%nat by lia.
  rewrite seq_app, map_app. f_equal.
  rewrite (map_seq_from (fun i => a + Z.of_nat i)).
  apply map_ext. intros i. lia.
Qed.

Lemma bizdays_between_split (cal : Bizdays.Calendar) (a c b : Z) :
  a <= c <= b + 1 ->
  Bizdays.bizdays_between cal a b
  = (Bizdays.bizdays_between cal a (c - 1) ++
     Bizdays.bizdays_between cal c b)%list.
Proof.
  intros H. unfold Bizdays.bizdays_between.
  rewrite (days_split a c b H). apply List.filter_app.
Qed.

(** With at least [n] business days before the date, [offset] by [-n] is
    the business day [n] places before the date's position. *)
Lemma offset_back (cal : Bizdays.Calendar) (date n : Z) :
  0 < n ->
  Bizdays.in_bounds cal date = true ->
  (Z.to_nat n <=
   length (Bizdays.bizdays_between cal (Bizdays.startdate cal) (date - 1)))%nat ->
  exists s,
    Bizdays.offset cal date (- n) = Ok s /\
    nth_error (Bizdays.bizdays_between cal (Bizdays.startdate cal) (date - 1))
      (length (Bizdays.bizdays_between cal (Bizdays.startdate cal) (date - 1))
       - Z.to_nat n) = Some s /\
    Bizdays.startdate cal <= s < date /\
    Bizdays.isbizday cal s = true.
Proof.
  intros Hn Hb Hhist. unfold Bizdays.offset. rewrite Hb.
  set (P := Bizdays.bizdays_between cal (Bizdays.startdate cal) (date - 1))
    in *.
  assert (Hpos : (length P - Z.to_nat n < length P)%nat) by lia.
  destruct (nth_error P (length P - Z.to_nat n)) as [s|] eqn:Hs.
  2:{ apply nth_error_None in Hs. lia. }
  exists s.
  assert (Hin : In s P) by (eapply nth_error_In; exact Hs).
  apply bizdays_between_In in Hin.
  split; [|split; [reflexivity|split; [lia|tauto]]].
  unfold Bizdays.in_bounds in Hb.
  rewrite (bizdays_between_split cal (Bizdays.startdate cal) date
             (Bizdays.enddate cal)) by lia.
  fold P. unfold Bizdays.py_index.
  destruct (Z.leb_spec 0 (Z.of_nat (length P) + - n)) as [_|?]; [|lia].
  replace (Z.to_nat (Z.of_nat (length P) + - n))
    with (length P - Z.to_nat n)%nat by lia.
  rewrite nth_error_app1 by exact Hpos. rewrite Hs. reflexivity.
Qed.

(** With that much history, the sequence of [main] is the list of the
    business days from the start found by [offset] to today. *)
Lemma dates_in_range_history (cal : Bizdays.Calendar) (today n : Z) :
  0 < n ->
  Bizdays.in_bounds cal today = true ->
  (Z.to_nat n <=
   length (Bizdays.bizdays_between cal (Bizdays.startdate cal) (today - 1)))%nat ->
  exists s,
    dates_in_range cal today n = Ok (Bizdays.bizdays_between cal s today) /\
    nth_error (Bizdays.bizdays_between cal (Bizdays.startdate cal) (today - 1))
      (length (Bizdays.bizdays_between cal (Bizdays.startdate cal)
                 (today - 1)) - Z.to_nat n) = Some s /\
    Bizdays.startdate cal <= s < today /\
    Bizdays.isbizday cal s = true.
Proof.
  intros Hn Hb Hhist.
  destruct (offset_back cal today n Hn Hb Hhist) as (s & Hoff & Hnth & Hs & Hbiz).
  exists s. split; [|tauto].
  unfold dates_in_range. rewrite Hoff. simpl.
  unfold Bizdays.seq. rewrite Hb.
  assert (Bizdays.in_bounds cal s = true) as ->.
  { unfold Bizdays.in_bounds in *. lia. }
  simpl. destruct (Z.leb_spec s today) as [_|?]; [reflexivity|lia].
Qed.

Lemma bizdays_between_last (cal : Bizdays.Calendar) (s today : Z) :
  s < today -> Bizdays.isbizday cal s = true ->
  exists d,
    last (Bizdays.bizdays_between cal s today) = Some d /\
    (Bizdays.isbizday cal today = true -> d = today) /\
    (Bizdays.isbizday cal today = false -> d < today).
Proof.
  intros Hlt Hbiz.
  assert (Hin : In s (Bizdays.bizdays_between cal s today)).
  { apply bizdays_between_In. split; [lia|exact Hbiz]. }
  pose proof (bizdays_between_sorted cal s today) as Hsorted.
  destruct (last (Bizdays.bizdays_between cal s today)) as [d|] eqn:Hl.
  2:{ apply last_None in Hl. rewrite Hl in Hin. destruct Hin. }
  exists d. split; [reflexivity|].
  pose proof (last_Some_In _ _ Hl) as Hd. apply bizdays_between_In in Hd.
  split.
  - intros Ht.
    assert (today <= d); [|lia].
    apply (sorted_last_max _ _ _ Hsorted Hl).
    apply bizdays_between_In. split; [lia|exact Ht].
  - intros Ht. destruct Hd as [Hd1 Hd2].
    destruct (Z.eq_dec d today) as [E|Hneq]; [|lia].
    rewrite E in Hd2. congruence.
Qed.

(** C6, as amended: when today lies in the calendar and at least
    [bdays_range] business days precede it there, the sequence [main]
    iterates over is produced, is strictly ascending and free of
    duplicates, holds business days only, and its last date is today when
    today is a business day; when today is not one, the last date is an
    earlier day. *)
Theorem dates_in_range_ascending (cal : Bizdays.Calendar)
    (today bdays_range : Z) :
  0 < bdays_range ->
  Bizdays.in_bounds cal today = true ->
  (Z.to_nat bdays_range <=
   length (Bizdays.bizdays_between cal (Bizdays.startdate cal)
             (today - 1)))%nat ->
  exists ds,
    dates_in_range cal today bdays_range = Ok ds /\
    StronglySorted Z.lt ds /\ List.NoDup ds /\
    (forall d, In d ds -> Bizdays.isbizday cal d = true /\ d <= today) /\
    exists d, last ds = Some d /\
      (Bizdays.isbizday cal today = true -> d = today) /\
      (Bizdays.isbizday cal today = false -> d < today).
Proof.
  intros Hn Hb Hhist.
  destruct (dates_in_range_history cal today bdays_range Hn Hb Hhist)
    as (s & Hds & _ & Hs & Hbiz).
  exists (Bizdays.bizdays_between cal s today). split; [exact Hds|].
  pose proof (bizdays_between_sorted cal s today) as Hsorted.
  split; [exact Hsorted|].
  split; [apply StronglySorted_lt_NoDup, Hsorted|].
  split; [intros d Hd; apply bizdays_between_In in Hd; split; [tauto|lia]|].
  apply bizdays_between_last; [lia|exact Hbiz].
Qed.

Lemma dates_in_range_ascending_witness :
  exists ds,
    dates_in_range sample_calendar 19741 10 = Ok ds /\
    StronglySorted Z.lt ds /\ List.NoDup ds /\
    (forall d, In d ds ->
       Bizdays.isbizday sample_calendar d = true /\ d <= 19741) /\
    exists d, last ds = Some d /\
      (Bizdays.isbizday sample_calendar 19741 = true -> d = 19741) /\
      (Bizdays.isbizday sample_calendar 19741 = false -> d < 19741).
Proof.
  apply dates_in_range_ascending.
  - lia.
  - reflexivity.
  - vm_compute. lia.
Defined.

(** C6, as stated, fails in two ways.  On a Saturday (2024-01-20, day
    19742) the sequence is the ten business days from 2024-01-08 to the
    Friday before, so its last date is not today.  And on a day with fewer
    than [bdays_range] business days before it in the calendar
    (2024-01-02, day 19724) the start found by [offset] lies near the end
    of the calendar and the sequence runs backwards from it. *)
Lemma dates_in_range_last_counterexample :
  (exists ds,
     dates_in_range sample_calendar 19742 10 = Ok ds /\
     ds = [19730; 19731; 19732; 19733; 19734;
           19737; 19738; 19739; 19740; 19741] /\
     last ds <> Some 19742) /\
  (exists ds,
     dates_in_range sample_calendar 19724 10 = Ok ds /\
     head ds = Some 19773 /\ last ds = Some 19724 /\
     ~ StronglySorted Z.lt ds).
Proof.
  split.
  - eexists. split; [vm_compute; reflexivity|].
    split; [reflexivity|discriminate].
  - eexists. split; [vm_compute; reflexivity|].
    split; [reflexivity|]. split; [reflexivity|].
    intros H. inversion H as [|x l _ Hall]; subst.
    rewrite List.Forall_forall in Hall.
    specialize (Hall 19772 (or_introl eq_refl)). lia.
Qed.

End Calendar.

(** ** The token manager *)

Lemma dict_lookup_store_eq (k : string) (v : json) (d : list (string * json)) :
  dict_lookup k (dict_store k v d) = Some v.
Proof.
  induction d as [|[k' v'] d IH]; simpl.
  - rewrite String.eqb_refl. reflexivity.
  - destruct (String.eqb k k') eqn:E; simpl; rewrite E; [reflexivity|exact IH].
Qed.

Lemma dict_lookup_store_ne (k k0 : string) (v : json)
    (d : list (string * json)) :
  k0 <> k -> dict_lookup k0 (dict_store k v d) = dict_lookup k0 d.
Proof.
  intros Hne. induction d as [|[k' v'] d IH]; simpl.
  - destruct (String.eqb_spec k0 k); [contradiction|reflexivity].
  - destruct (String.eqb_spec k k') as [<-|Hk]; simpl.
    + destruct (String.eqb_spec k0 k); [contradiction|reflexivity].
    + destruct (String.eqb k0 k'); [reflexivity|exact IH].
Qed.

Lemma Qltb_true (a b : Q) : (a < b)%Q -> Qltb a b = true.
Proof.
  intros H. unfold Qltb. apply negb_true_iff.
  destruct (Qle_bool b a) eqn:E; [|reflexivity].
  apply Qle_bool_iff in E. exfalso. apply (Qlt_not_le _ _ H E).
Qed.

Lemma Qltb_false (a b : Q) : (b <= a)%Q -> Qltb a b = false.
Proof.
  intros H. unfold Qltb. apply negb_false_iff. apply Qle_bool_iff. exact H.
Qed.

(** The try block on a readable credentials file whose cache is stale. *)
Lemma try_reuse_stale (env : Env) (self : anbima_api) (w : World)
    (creds : list (string * json)) (cid secret : json) :
  fs w !! token_file self = Some (Doc (JObj creds)) ->
  dict_lookup "client_id" creds = Some cid ->
  dict_lookup "client_secret" creds = Some secret ->
  cache_stale (utcnow_check env) creds ->
  try_reuse env self w
  = (set_global_client_id cid w,
     mkLocals (Some (JObj creds)) (Some secret), Refresh).
Proof.
  intros Hf Hc Hs Hstale. unfold try_reuse. rewrite Hf. simpl.
  rewrite Hc, Hs. simpl.
  destruct Hstale as [Hi|info Hi Ha|info Hi He|info e Hi He Hle];
    rewrite Hi; simpl.
  - reflexivity.
  - rewrite Ha. reflexivity.
  - rewrite He. simpl. rewrite andb_false_r. reflexivity.
  - rewrite He. simpl.
    destruct (truthy _ && _); simpl; [|reflexivity].
    rewrite Qltb_false by exact Hle. reflexivity.
Qed.

(** A refresh that the endpoint answers with 200 or 201 and a json
    object. *)
Lemma generate_token_refreshed (env : Env) (self : anbima_api) (w : World)
    (creds data : list (string * json)) (cid secret : json) (n : Q) :
  fs w !! token_file self = Some (Doc (JObj creds)) ->
  dict_lookup "client_id" creds = Some cid ->
  dict_lookup "client_secret" creds = Some secret ->
  cache_stale (utcnow_check env) creds ->
  (status_code (token_endpoint env) = 200 \/
   status_code (token_endpoint env) = 201)%Z ->
  body (token_endpoint env) = Some (JObj data) ->
  stated_lifetime data n ->
  let tok := match dict_lookup "access_token" data with
             | Some v => v
             | None => JNull
             end in
  let saved :=
    dict_store "token_info"
      (JObj [("access_token", tok);
             ("expires_at", JNum (utcnow_save env + n - 60))]) creds in
  generate_token env self w
  = (set_token tok self,
     write_file (token_file self) (JObj saved)
       (emit (Post token_url cid secret) (set_global_client_id cid w)),
     Ok tt).
Proof.
  intros Hf Hc Hs Hstale Hst Hb Hn tok saved.
  unfold generate_token.
  rewrite (try_reuse_stale env self w creds cid secret Hf Hc Hs Hstale).
  simpl global_client_id. cbn iota. simpl client_secret. cbn iota.
  assert (is_200_or_201 (status_code (token_endpoint env)) = true) as ->.
  { unfold is_200_or_201. destruct Hst as [-> | ->]; reflexivity. }
  rewrite Hb. simpl get. cbn iota.
  fold tok.
  destruct Hn as [Hnone Hn|Hsome].
  - simpl. rewrite Hnone. simpl. subst n. reflexivity.
  - simpl. rewrite Hsome. simpl. reflexivity.
Qed.

(** C3: when the credentials file holds a cached token (a non-empty
    [access_token]) whose [expires_at] is strictly after the current time,
    [generate_token] returns, [self.token] is the cached value, and the
    trace (no request, no write) and the files are as they were. *)
Theorem generate_token_reuses_cached (env : Env) (self : anbima_api)
    (w : World) (creds info : list (string * json)) (cid secret tok : json)
    (expires_at : Q) :
  fs w !! token_file self = Some (Doc (JObj creds)) ->
  dict_lookup "client_id" creds = Some cid ->
  dict_lookup "client_secret" creds = Some secret ->
  dict_lookup "token_info" creds = Some (JObj info) ->
  dict_lookup "access_token" info = Some tok ->
  truthy tok = true ->
  dict_lookup "expires_at" info = Some (JNum expires_at) ->
  (0 <= utcnow_check env)%Q ->
  (utcnow_check env < expires_at)%Q ->
  exists (self' : anbima_api) (w' : World),
    generate_token env self w = (self', w', Ok tt) /\
    token self' = tok /\
    token_file self' = token_file self /\
    trace w' = trace w /\
    fs w' = fs w.
Proof.
  intros Hf Hc Hs Hi Ha Ht He H0 Hlt.
  exists (set_token tok self), (set_global_client_id cid w).
  split; [|repeat split].
  unfold generate_token, try_reuse. rewrite Hf. simpl.
  rewrite Hc, Hs. simpl. rewrite Hi. simpl. rewrite Ha, He, Ht. simpl.
  assert (Qeq_bool expires_at 0 = false) as ->.
  { destruct (Qeq_bool expires_at 0) eqn:E; [|reflexivity].
    apply Qeq_bool_iff in E. rewrite E in Hlt.
    exfalso. apply (Qlt_not_le _ _ Hlt H0). }
  simpl. rewrite Qltb_true by exact Hlt. reflexivity.
Qed.

(** C4: with a readable credentials file whose cached token is absent or
    expired, and a 200 or 201 answer carrying [access_token],
    [generate_token] returns with that token in [self.token] and has
    written the credentials back with [token_info] holding the token and
    [expires_at = now + expires_in - 60] ([expires_in] being 3600 when the
    answer has none); every other field, [client_id] and [client_secret]
    among them, is as it was; one request and one write were made. *)
Theorem generate_token_refresh_persists (env : Env) (self : anbima_api)
    (w : World) (creds data : list (string * json)) (cid secret tok : json)
    (expires_in : Q) :
  fs w !! token_file self = Some (Doc (JObj creds)) ->
  dict_lookup "client_id" creds = Some cid ->
  dict_lookup "client_secret" creds = Some secret ->
  cache_stale (utcnow_check env) creds ->
  (status_code (token_endpoint env) = 200 \/
   status_code (token_endpoint env) = 201)%Z ->
  body (token_endpoint env) = Some (JObj data) ->
  dict_lookup "access_token" data = Some tok ->
  stated_lifetime data expires_in ->
  exists (w' : World) (saved : list (string * json)),
    generate_token env self w = (set_token tok self, w', Ok tt) /\
    fs w' !! token_file self = Some (Doc (JObj saved)) /\
    dict_lookup "token_info" saved
    = Some (JObj [("access_token", tok);
                  ("expires_at",
                   JNum (utcnow_save env + expires_in - 60))]) /\
    dict_lookup "client_id" saved = Some cid /\
    dict_lookup "client_secret" saved = Some secret /\
    (forall k, k <> "token_info" ->
               dict_lookup k saved = dict_lookup k creds) /\
    trace w' = (trace w ++ [Post token_url cid secret;
                            FileWrite (token_file self) (JObj saved)])%list.
Proof.
  intros Hf Hc Hs Hstale Hst Hb Ha Hn.
  pose proof (generate_token_refreshed env self w creds data cid secret
                expires_in Hf Hc Hs Hstale Hst Hb Hn) as H.
  rewrite Ha in H. cbv zeta in H.
  eexists _, _. split; [exact H|].
  split; [apply lookup_insert_eq|].
  split; [apply dict_lookup_store_eq|].
  split; [rewrite dict_lookup_store_ne by discriminate; exact Hc|].
  split; [rewrite dict_lookup_store_ne by discriminate; exact Hs|].
  split; [intros k Hk; apply dict_lookup_store_ne; exact Hk|].
  simpl. rewrite <- app_assoc. reflexivity.
Qed.

(** C10: with a 200 or 201 answer that has no [access_token],
    [generate_token] still returns: [self.token] is None, the written
    [token_info] has a null [access_token], and the failure shows only in
    the next [get_data_by_date], which raises its missing-token error
    without sending anything. *)
Theorem generate_token_without_access_token (env : Env) (self : anbima_api)
    (w : World) (creds data : list (string * json)) (cid secret : json)
    (expires_in : Q) :
  fs w !! token_file self = Some (Doc (JObj creds)) ->
  dict_lookup "client_id" creds = Some cid ->
  dict_lookup "client_secret" creds = Some secret ->
  cache_stale (utcnow_check env) creds ->
  (status_code (token_endpoint env) = 200 \/
   status_code (token_endpoint env) = 201)%Z ->
  body (token_endpoint env) = Some (JObj data) ->
  dict_lookup "access_token" data = None ->
  stated_lifetime data expires_in ->
  exists (self' : anbima_api) (w' : World) (saved : list (string * json)),
    generate_token env self w = (self', w', Ok tt) /\
    token self' = JNull /\
    fs w' !! token_file self = Some (Doc (JObj saved)) /\
    dict_lookup "token_info" saved
    = Some (JObj [("access_token", JNull);
                  ("expires_at",
                   JNum (utcnow_save env + expires_in - 60))]) /\
    forall url date,
      get_data_by_date env self' w' url date = (w', Raise TokenNotGenerated).
Proof.
  intros Hf Hc Hs Hstale Hst Hb Ha Hn.
  pose proof (generate_token_refreshed env self w creds data cid secret
                expires_in Hf Hc Hs Hstale Hst Hb Hn) as H.
  rewrite Ha in H. cbv zeta in H.
  eexists _, _, _. split; [exact H|].
  split; [reflexivity|].
  split; [apply lookup_insert_eq|].
  split; [apply dict_lookup_store_eq|].
  intros url date. reflexivity.
Qed.

(** C2 on the code: with the credentials file missing or unparsable,
    [generate_token] raises while building the request (the names
    [client_id] and [client_secret] were never bound), and nothing has
    been sent: the world is as it was. *)
Theorem generate_token_unreadable_file_raises (env : Env) (self : anbima_api)
    (w : World) :
  fs w !! token_file self = None \/ fs w !! token_file self = Some Garbage ->
  exists e,
    generate_token env self w = (self, w, Raise e) /\
    (e = NameError "client_id" \/ e = UnboundLocalError "client_secret").
Proof.
  intros [Hf|Hf]; unfold generate_token, try_reuse; rewrite Hf;
    cbn iota; destruct (global_client_id w); simpl;
    eexists; (split; [reflexivity|]); tauto.
Qed.

(** ** The daily fetch loop *)

Lemma get_data_by_date_sends (env : Env) (api : anbima_api) (w : World)
    (url date tok cid : string) :
  token api = JStr tok -> tok <> "" ->
  global_client_id w = Some (JStr cid) ->
  get_data_by_date env api w url date
  = let response := data_endpoint env (url ++ "?data=" ++ date) in
    (emit (HttpGet (url ++ "?data=" ++ date) cid tok) w,
     if (status_code response =? 200)%Z
     then match body response with
          | Some data => Ok data
          | None => Raise JSONDecodeError
          end
     else Raise (DataRequestFailed (status_code response) (text response))).
Proof.
  intros Ht Hne Hg. unfold get_data_by_date. rewrite Ht, Hg. simpl.
  destruct (String.eqb_spec tok "") as [E|_]; [contradiction|]. simpl.
  destruct (status_code _ =? 200)%Z; [destruct (body _)|]; reflexivity.
Qed.

Lemma assemble_rows (date : Z) (data : payload) (acc : option DataFrame) :
  rows (assemble (Date.strftime date) data acc)
  = (table_rows acc ++ rows_for date data)%list.
Proof. destruct acc; reflexivity. Qed.

Lemma fetch_loop_all_ok (env : Env) (api : anbima_api) (tok cid : string)
    (p : Z -> payload) (dates : list Z) :
  token api = JStr tok -> tok <> "" ->
  (forall d, In d dates ->
     status_code (data_endpoint env (url_for d)) = 200%Z /\
     body (data_endpoint env (url_for d)) = Some (p d)) ->
  forall (acc : option DataFrame) (w : World),
    global_client_id w = Some (JStr cid) ->
    exists (w' : World) (acc' : option DataFrame),
      fetch_loop env api dates acc w = (w', Ok acc') /\
      (dates <> [] -> acc' <> None) /\
      (dates = [] -> acc' = acc) /\
      table_rows acc'
      = (table_rows acc ++ flat_map (fun d => rows_for d (p d)) dates)%list /\
      fs w' = fs w /\
      global_client_id w' = global_client_id w /\
      trace w' = (trace w ++ sent cid tok dates)%list.
Proof.
  intros Ht Hne. induction dates as [|d dates IH]; intros Hall acc w Hg.
  - exists w, acc. simpl. rewrite !app_nil_r. repeat split; congruence.
  - simpl fetch_loop.
    rewrite (get_data_by_date_sends env api w url_request
               (Date.strftime d) tok cid Ht Hne Hg).
    cbv zeta. fold (url_for d).
    destruct (Hall d (or_introl eq_refl)) as [Hst Hb].
    rewrite Hst, Hb. simpl Z.eqb. cbn iota.
    destruct (IH (fun d' H => Hall d' (or_intror H))
                 (Some (assemble (Date.strftime d) (p d) acc))
                 (emit (HttpGet (url_for d) cid tok) w) Hg)
      as (w' & acc' & Hloop & Hsome & Hnil & Hrows & Hfs & Hgl & Htr).
    exists w', acc'. split; [exact Hloop|].
    split.
    { intros _. destruct dates; [rewrite Hnil by reflexivity; discriminate|].
      apply Hsome. discriminate. }
    split; [discriminate|].
    split.
    { rewrite Hrows. simpl table_rows. rewrite assemble_rows.
      simpl flat_map. rewrite <- app_assoc. reflexivity. }
    split; [exact Hfs|]. split; [exact Hgl|].
    rewrite Htr. simpl. rewrite <- app_assoc. reflexivity.
Qed.

Lemma fetch_loop_fails (env : Env) (api : anbima_api) (tok cid : string)
    (p : Z -> payload) (before after : list Z) (d : Z) :
  token api = JStr tok -> tok <> "" ->
  (forall d', In d' before ->
     status_code (data_endpoint env (url_for d')) = 200%Z /\
     body (data_endpoint env (url_for d')) = Some (p d')) ->
  status_code (data_endpoint env (url_for d)) <> 200%Z ->
  forall (acc : option DataFrame) (w : World),
    global_client_id w = Some (JStr cid) ->
    exists w' : World,
      fetch_loop env api (before ++ d :: after) acc w
      = (w', Raise (DataRequestFailed
                      (status_code (data_endpoint env (url_for d)))
                      (text (data_endpoint env (url_for d))))) /\
      fs w' = fs w /\
      trace w' = (trace w ++ sent cid tok (before ++ [d]))%list.
Proof.
  intros Ht Hne Hall Hbad. induction before as [|b before IH];
    intros acc w Hg.
  - simpl app. simpl fetch_loop.
    rewrite (get_data_by_date_sends env api w url_request
               (Date.strftime d) tok cid Ht Hne Hg).
    cbv zeta. fold (url_for d).
    destruct (Z.eqb_spec (status_code (data_endpoint env (url_for d))) 200)
      as [E|_]; [contradiction|].
    eexists. split; [reflexivity|]. split; reflexivity.
  - simpl app. simpl fetch_loop.
    rewrite (get_data_by_date_sends env api w url_request
               (Date.strftime b) tok cid Ht Hne Hg).
    cbv zeta. fold (url_for b).
    destruct (Hall b (or_introl eq_refl)) as [Hst Hb].
    rewrite Hst, Hb. simpl Z.eqb. cbn iota.
    destruct (IH (fun d' H => Hall d' (or_intror H))
                 (Some (assemble (Date.strftime b) (p b) acc))
                 (emit (HttpGet (url_for b) cid tok) w) Hg)
      as (w' & Hloop & Hfs & Htr).
    exists w'. split; [exact Hloop|]. split; [exact Hfs|].
    rewrite Htr. simpl. rewrite <- app_assoc. reflexivity.
Qed.

(** ** The assembled table and the failing fetch *)

Lemma rows_for_expected (d : Z) (data : payload) :
  rows_for d data = expected_rows (Date.strftime d) data.
Proof. destruct data; reflexivity. Qed.

(** C8: when every day of the sequence is answered with 200 and a payload,
    the loop ends without error with a table whose rows are, day after day
    in the order of the sequence, the records of that day's array in the
    order received (or the one record of that day's object), each with
    [data_referencia] set to that day; rows of earlier days precede rows
    of later days, and a day with an empty array adds no row. *)
Theorem assembled_table_rows (env : Env) (api : anbima_api) (w : World)
    (tok cid : string) (p : Z -> payload) (dates : list Z) :
  token api = JStr tok -> tok <> "" ->
  global_client_id w = Some (JStr cid) ->
  dates <> [] ->
  (forall d, In d dates ->
     status_code (data_endpoint env (url_for d)) = 200%Z /\
     body (data_endpoint env (url_for d)) = Some (p d)) ->
  exists (w' : World) (result_df : DataFrame),
    fetch_loop env api dates None w = (w', Ok (Some result_df)) /\
    rows result_df
    = flat_map
        (fun d =>
           match p d with
           | PList records =>
               map (fun r => mkRow (tipo_titulo r) (data_vencimento r)
                                   (taxa_indicativa r) (Date.strftime d))
                   records
           | PObject r =>
               [mkRow (tipo_titulo r) (data_vencimento r)
                      (taxa_indicativa r) (Date.strftime d)]
           end) dates /\
    (forall earlier later, dates = (earlier ++ later)%list ->
       rows result_df
       = (flat_map (fun d => expected_rows (Date.strftime d) (p d)) earlier ++
          flat_map (fun d => expected_rows (Date.strftime d) (p d)) later)%list).
Proof.
  intros Ht Hne Hg Hdates Hall.
  destruct (fetch_loop_all_ok env api tok cid p dates Ht Hne Hall None w Hg)
    as (w' & acc' & Hloop & Hsome & _ & Hrows & _).
  destruct acc' as [df|]; [|exfalso; apply (Hsome Hdates); reflexivity].
  exists w', df. split; [exact Hloop|].
  simpl in Hrows.
  assert (Hexp : rows df
                 = flat_map (fun d => expected_rows (Date.strftime d) (p d))
                     dates).
  { rewrite Hrows. apply flat_map_ext. intros d. apply rows_for_expected. }
  split; [exact Hexp|].
  intros e l ->. rewrite Hexp. apply flat_map_app.
Qed.

Lemma assembled_table_rows_witness :
  exists (w' : World) (result_df : DataFrame),
    fetch_loop
      {| utcnow_check := 1000; utcnow_save := 1000; today := 19727;
         token_endpoint := mkResponse 200 "" None;
         data_endpoint := object_data_endpoint |}
      sample_api [19724; 19725; 19726; 19727]%Z None
      (set_global_client_id (JStr "my-id") fresh_world)
    = (w', Ok (Some result_df)) /\
    rows result_df
    = [mkRow "LTN" "2030-01-01" (Np.Fin 5) "2024-01-02";
       mkRow "NTN-B" "2035-05-15" (Np.Fin 6) "2024-01-02";
       mkRow "LTN" "2030-01-01" (Np.Fin (51 / 10)) "2024-01-04";
       mkRow "LTN" "2027-07-01" (Np.Fin 4) "2024-01-04";
       mkRow "NTN-B" "2035-05-15" (Np.Fin 6) "2024-01-04";
       mkRow "LFT" "2029-03-01" (Np.Fin 1) "2024-01-05"].
Proof.
  destruct (assembled_table_rows
              {| utcnow_check := 1000; utcnow_save := 1000; today := 19727;
                 token_endpoint := mkResponse 200 "" None;
                 data_endpoint := object_data_endpoint |}
              sample_api (set_global_client_id (JStr "my-id") fresh_world)
              "cached-token" "my-id" object_payload
              [19724; 19725; 19726; 19727]%Z)
    as (w' & result_df & Hloop & Hrows & _).
  - reflexivity.
  - discriminate.
  - reflexivity.
  - discriminate.
  - intros d [<-|[<-|[<-|[<-|[]]]]]; split; reflexivity.
  - exists w', result_df. split; [exact Hloop|].
    rewrite Hrows. reflexivity.
Defined.

(** The sample sequence gives 2 + 0 + 3 = 5 rows, tagged day by day. *)
Example sample_table_tags :
  map data_referencia
    (flat_map (fun d => rows_for d (sample_payload d))
       [19724; 19725; 19726]%Z)
  = ["2024-01-02"; "2024-01-02"; "2024-01-04"; "2024-01-04"; "2024-01-04"].
Proof. reflexivity. Qed.

Lemma sent_prints_nothing (cid tok : string) (dates : list Z) :
  List.filter is_print (sent cid tok dates) = [].
Proof. induction dates as [|d dates IH]; [reflexivity|exact IH]. Qed.

(** C7: a day answered with a status other than 200 makes
    [get_data_by_date] raise with that status and body, and ends [main]
    with the same error: the requests sent are those of the earlier days
    and of the failing day, each once and in order, none for a later day,
    and nothing has been printed. *)
Theorem failed_fetch_aborts_run (env : Env) (cal : Bizdays.Calendar)
    (bdays_range : Z) (token_file : string) (w w1 : World)
    (api : anbima_api) (tok cid : string) (p : Z -> payload)
    (before after : list Z) (d : Z) (status : Z) (message : string) :
  generate_token env (init token_file) w = (api, w1, Ok tt) ->
  token api = JStr tok -> tok <> "" ->
  global_client_id w1 = Some (JStr cid) ->
  dates_in_range cal (today env) bdays_range = Ok (before ++ d :: after)%list ->
  (forall d', In d' before ->
     status_code (data_endpoint env (url_for d')) = 200%Z /\
     body (data_endpoint env (url_for d')) = Some (p d')) ->
  status_code (data_endpoint env (url_for d)) = status ->
  text (data_endpoint env (url_for d)) = message ->
  status <> 200%Z ->
  (forall w0, global_client_id w0 = Some (JStr cid) ->
     get_data_by_date env api w0 url_request (Date.strftime d)
     = (emit (HttpGet (url_for d) cid tok) w0,
        Raise (DataRequestFailed status message))) /\
  exists w2 : World,
    main env cal bdays_range token_file w
    = (w2, Raise (DataRequestFailed status message)) /\
    trace w2 = (trace w1 ++ sent cid tok (before ++ [d]))%list /\
    List.filter is_print (trace w2) = List.filter is_print (trace w1).
Proof.
  intros Hgen Ht Hne Hg Hdates Hall <- <- Hbad. split.
  - intros w0 Hg0.
    rewrite (get_data_by_date_sends env api w0 url_request
               (Date.strftime d) tok cid Ht Hne Hg0).
    cbv zeta. fold (url_for d).
    destruct (Z.eqb_spec (status_code (data_endpoint env (url_for d))) 200)
      as [E|_]; [contradiction|reflexivity].
  - destruct (fetch_loop_fails env api tok cid p before after d Ht Hne Hall
                Hbad None w1 Hg) as (w2 & Hloop & _ & Htr).
    exists w2. unfold main. rewrite Hgen, Hdates, Hloop.
    split; [reflexivity|]. split; [exact Htr|].
    rewrite Htr, List.filter_app, sent_prints_nothing. apply app_nil_r.
Qed.

Lemma failed_fetch_aborts_run_witness :
  (forall w0, global_client_id w0 = Some (JStr "my-id") ->
     get_data_by_date (sample_env 1000 19730 (mkResponse 200 "" None))
       sample_api w0 url_request (Date.strftime 19727)
     = (emit (HttpGet (url_for 19727) "my-id" "cached-token") w0,
        Raise (DataRequestFailed 404 "Not Found"))) /\
  exists w2 : World,
    main (sample_env 1000 19730 (mkResponse 200 "" None)) sample_calendar 4
      "anbimaAuth.json"
      (world_with (sample_credentials
                     [("access_token", JStr "cached-token");
                      ("expires_at", JNum 2000)]))
    = (w2, Raise (DataRequestFailed 404 "Not Found")) /\
    trace w2
    = (trace (set_global_client_id (JStr "my-id")
                (world_with (sample_credentials
                               [("access_token", JStr "cached-token");
                                ("expires_at", JNum 2000)]))) ++
       sent "my-id" "cached-token"
         ([19724; 19725; 19726] ++ [19727])%Z)%list /\
    List.filter is_print (trace w2)
    = List.filter is_print
        (trace (set_global_client_id (JStr "my-id")
                  (world_with (sample_credentials
                                 [("access_token", JStr "cached-token");
                                  ("expires_at", JNum 2000)])))).
Proof.
  apply (failed_fetch_aborts_run
           (sample_env 1000 19730 (mkResponse 200 "" None))
           sample_calendar 4 "anbimaAuth.json" _ _
           sample_api "cached-token" "my-id" sample_payload
           [19724; 19725; 19726]%Z [19730]%Z 19727%Z).
  - vm_compute. reflexivity.
  - reflexivity.
  - discriminate.
  - reflexivity.
  - vm_compute. reflexivity.
  - intros d [<-|[<-|[<-|[]]]]; split; reflexivity.
  - reflexivity.
  - reflexivity.
  - discriminate.
Defined.

Lemma generate_token_reuses_cached_witness :
  exists (self' : anbima_api) (w' : World),
    generate_token (sample_env 1000 19730 (mkResponse 500 "" None))
      (init "anbimaAuth.json")
      (world_with (sample_credentials
                     [("access_token", JStr "cached-token");
                      ("expires_at", JNum 2000)]))
    = (self', w', Ok tt) /\
    token self' = JStr "cached-token" /\
    token_file self' = token_file (init "anbimaAuth.json") /\
    trace w'
    = trace (world_with (sample_credentials
                           [("access_token", JStr "cached-token");
                            ("expires_at", JNum 2000)])) /\
    fs w'
    = fs (world_with (sample_credentials
                        [("access_token", JStr "cached-token");
                         ("expires_at", JNum 2000)])).
Proof.
  apply (generate_token_reuses_cached _ _ _
           (sample_credentials [("access_token", JStr "cached-token");
                                ("expires_at", JNum 2000)])
           [("access_token", JStr "cached-token"); ("expires_at", JNum 2000)]
           (JStr "my-id") (JStr "my-secret") (JStr "cached-token") 2000).
  - reflexivity.
  - reflexivity.
  - reflexivity.
  - reflexivity.
  - reflexivity.
  - reflexivity.
  - reflexivity.
  - vm_compute. discriminate.
  - vm_compute. reflexivity.
Defined.

Lemma generate_token_refresh_persists_witness :
  exists (w' : World) (saved : list (string * json)),
    generate_token
      (sample_env 1000 19730
         (mkResponse 201 ""
            (Some (JObj [("access_token", JStr "fresh-token");
                         ("expires_in", JNum 1800)]))))
      (init "anbimaAuth.json")
      (world_with (sample_credentials
                     [("access_token", JStr "cached-token");
                      ("expires_at", JNum 500)]))
    = (set_token (JStr "fresh-token") (init "anbimaAuth.json"), w', Ok tt) /\
    fs w' !! token_file (init "anbimaAuth.json") = Some (Doc (JObj saved)) /\
    dict_lookup "token_info" saved
    = Some (JObj [("access_token", JStr "fresh-token");
                  ("expires_at", JNum (1000 + 1800 - 60))]) /\
    dict_lookup "client_id" saved = Some (JStr "my-id") /\
    dict_lookup "client_secret" saved = Some (JStr "my-secret") /\
    (forall k, k <> "token_info" ->
       dict_lookup k saved
       = dict_lookup k (sample_credentials
                          [("access_token", JStr "cached-token");
                           ("expires_at", JNum 500)])) /\
    trace w'
    = (trace (world_with (sample_credentials
                            [("access_token", JStr "cached-token");
                             ("expires_at", JNum 500)])) ++
       [Post token_url (JStr "my-id") (JStr "my-secret");
        FileWrite (token_file (init "anbimaAuth.json")) (JObj saved)])%list.
Proof.
  apply (generate_token_refresh_persists
           (sample_env 1000 19730
              (mkResponse 201 ""
                 (Some (JObj [("access_token", JStr "fresh-token");
                              ("expires_in", JNum 1800)]))))
           _ _ _ [("access_token", JStr "fresh-token");
                  ("expires_in", JNum 1800)]).
  - reflexivity.
  - reflexivity.
  - reflexivity.
  - apply (stale_expired _ _ [("access_token", JStr "cached-token");
                              ("expires_at", JNum 500)] 500);
      [reflexivity|reflexivity|vm_compute; discriminate].
  - right. reflexivity.
  - reflexivity.
  - reflexivity.
  - apply lifetime_given. reflexivity.
Defined.

Lemma generate_token_without_access_token_witness :
  exists (self' : anbima_api) (w' : World) (saved : list (string * json)),
    generate_token
      (sample_env 1000 19730 (mkResponse 200 "{}" (Some (JObj []))))
      (init "anbimaAuth.json")
      (world_with (sample_credentials []))
    = (self', w', Ok tt) /\
    token self' = JNull /\
    fs w' !! token_file (init "anbimaAuth.json") = Some (Doc (JObj saved)) /\
    dict_lookup "token_info" saved
    = Some (JObj [("access_token", JNull);
                  ("expires_at", JNum (1000 + 3600 - 60))]) /\
    forall url date,
      get_data_by_date
        (sample_env 1000 19730 (mkResponse 200 "{}" (Some (JObj []))))
        self' w' url date
      = (w', Raise TokenNotGenerated).
Proof.
  apply (generate_token_without_access_token
           (sample_env 1000 19730 (mkResponse 200 "{}" (Some (JObj []))))
           (init "anbimaAuth.json") (world_with (sample_credentials []))
           (sample_credentials []) [] (JStr "my-id") (JStr "my-secret")).
  - reflexivity.
  - reflexivity.
  - reflexivity.
  - apply (stale_no_access_token _ _ []); reflexivity.
  - left. reflexivity.
  - reflexivity.
  - reflexivity.
  - apply lifetime_default; reflexivity.
Defined.

Lemma generate_token_unreadable_file_raises_witness :
  exists e,
    generate_token (sample_env 1000 19730 (mkResponse 200 "" None))
      (init "anbimaAuth.json") fresh_world
    = (init "anbimaAuth.json", fresh_world, Raise e) /\
    (e = NameError "client_id" \/ e = UnboundLocalError "client_secret").
Proof.
  apply generate_token_unreadable_file_raises. left. reflexivity.
Defined.

(** A run in which every day is answered with an empty array reaches
    [volatility] with a frame that has no instrument-type column, and ends
    with KeyError. *)
Example run_with_empty_answers_raises :
  exists w2 : World,
    main {| utcnow_check := 1000; utcnow_save := 1000; today := 19730;
            token_endpoint := mkResponse 200 "" None;
            data_endpoint := empty_data_endpoint |}
         sample_calendar 4 "anbimaAuth.json"
         (world_with (sample_credentials
                        [("access_token", JStr "cached-token");
                         ("expires_at", JNum 2000)]))
    = (w2, Raise (KeyError "tipo_titulo")).
Proof. eexists. vm_compute. reflexivity. Qed.

(** * Further properties *)

(** ** The token manager: failures, cache round trip, effects *)

Lemma try_reuse_broken (env : Env) (self : anbima_api) (w : World)
    (creds : list (string * json)) (cid secret : json) :
  fs w !! token_file self = Some (Doc (JObj creds)) ->
  dict_lookup "client_id" creds = Some cid ->
  dict_lookup "client_secret" creds = Some secret ->
  cache_broken creds ->
  try_reuse env self w
  = (set_global_client_id cid w,
     mkLocals (Some (JObj creds)) (Some secret), Refresh).
Proof.
  intros Hf Hc Hs Hbroken. unfold try_reuse. rewrite Hf. simpl.
  rewrite Hc, Hs. simpl.
  destruct Hbroken as [v Hi Hv|info v Hi He Hv]; rewrite Hi; simpl.
  - rewrite Hv. reflexivity.
  - rewrite He. simpl. rewrite Hv.
    destruct (truthy _ && truthy v); reflexivity.
Qed.

(** What [generate_token] does once the try block has fallen through with
    the client fields bound. *)
Lemma generate_token_refresh_step (env : Env) (self : anbima_api)
    (w : World) (creds : list (string * json)) (cid secret : json) :
  try_reuse env self w
  = (set_global_client_id cid w,
     mkLocals (Some (JObj creds)) (Some secret), Refresh) ->
  generate_token env self w
  = let w1 := emit (Post token_url cid secret) (set_global_client_id cid w) in
    let response := token_endpoint env in
    if is_200_or_201 (status_code response) then
      match body response with
      | None => (self, w1, Raise JSONDecodeError)
      | Some data =>
          match get data "access_token" JNull with
          | Raise e => (self, w1, Raise e)
          | Ok tok =>
              match
                expires_in ← get data "expires_in" (JNum 3600);
                n ← as_number expires_in;
                Ok (JObj (dict_store "token_info"
                            (JObj [("access_token", tok);
                                   ("expires_at",
                                    JNum (utcnow_save env + n - 60))])
                            creds))
              with
              | Raise e => (set_token tok self, w1, Raise e)
              | Ok saved =>
                  (set_token tok self,
                   write_file (token_file self) saved w1, Ok tt)
              end
          end
      end
    else (self, w1,
          Raise (TokenRequestFailed (status_code response) (text response))).
Proof.
  intros Htry. unfold generate_token. rewrite Htry. cbv zeta.
  simpl global_client_id. simpl client_secret. cbn iota.
  destruct (is_200_or_201 _); [|reflexivity].
  destruct (body _) as [data|]; [|reflexivity].
  destruct (get data "access_token" JNull) as [tok|e]; [|reflexivity].
  destruct (get data "expires_in" (JNum 3600)) as [ei|e]; [|reflexivity].
  simpl. destruct (as_number ei); reflexivity.
Qed.

Lemma try_reuse_refresh (env : Env) (self : anbima_api) (w : World)
    (creds : list (string * json)) (cid secret : json) :
  fs w !! token_file self = Some (Doc (JObj creds)) ->
  dict_lookup "client_id" creds = Some cid ->
  dict_lookup "client_secret" creds = Some secret ->
  cache_stale (utcnow_check env) creds \/ cache_broken creds ->
  try_reuse env self w
  = (set_global_client_id cid w,
     mkLocals (Some (JObj creds)) (Some secret), Refresh).
Proof.
  intros Hf Hc Hs [H|H];
    [apply try_reuse_stale|apply try_reuse_broken]; assumption.
Qed.

Lemma not_200_or_201 (status : Z) :
  status <> 200%Z -> status <> 201%Z -> is_200_or_201 status = false.
Proof.
  intros H0 H1. unfold is_200_or_201.
  destruct (Z.eqb_spec status 200); [contradiction|].
  destruct (Z.eqb_spec status 201); [contradiction|reflexivity].
Qed.

Lemma is_200_or_201_true (status : Z) :
  status = 200%Z \/ status = 201%Z -> is_200_or_201 status = true.
Proof. intros [-> | ->]; reflexivity. Qed.

(** X1: a token endpoint answer other than 200 or 201 makes
    [generate_token] raise with the status and the body; the token and the
    files are as before, the one request is the only new event, and [main]
    ends with the same error without any request to the data endpoint. *)
Theorem token_request_failure_aborts (env : Env) (cal : Bizdays.Calendar)
    (bdays_range : Z) (path : string) (w : World)
    (creds : list (string * json)) (cid secret : json)
    (status : Z) (message : string) :
  fs w !! path = Some (Doc (JObj creds)) ->
  dict_lookup "client_id" creds = Some cid ->
  dict_lookup "client_secret" creds = Some secret ->
  cache_stale (utcnow_check env) creds \/ cache_broken creds ->
  status_code (token_endpoint env) = status ->
  text (token_endpoint env) = message ->
  status <> 200%Z -> status <> 201%Z ->
  exists w' : World,
    generate_token env (init path) w
    = (init path, w', Raise (TokenRequestFailed status message)) /\
    main env cal bdays_range path w
    = (w', Raise (TokenRequestFailed status message)) /\
    fs w' = fs w /\
    trace w' = (trace w ++ [Post token_url cid secret])%list.
Proof.
  intros Hf Hc Hs Hcache <- <- H0 H1.
  pose proof (generate_token_refresh_step env (init path) w creds cid secret
                (try_reuse_refresh env (init path) w creds cid secret
                   Hf Hc Hs Hcache)) as Hgen.
  cbv zeta in Hgen. rewrite (not_200_or_201 _ H0 H1) in Hgen.
  eexists. split; [exact Hgen|].
  split; [unfold main; rewrite Hgen; reflexivity|].
  split; reflexivity.
Qed.

(** The cache entry that a refresh has written is valid for a later
    check. *)
Lemma try_reuse_cached (env : Env) (self : anbima_api) (w : World)
    (creds info : list (string * json)) (cid secret tok : json)
    (expires_at : Q) :
  fs w !! token_file self = Some (Doc (JObj creds)) ->
  dict_lookup "client_id" creds = Some cid ->
  dict_lookup "client_secret" creds = Some secret ->
  dict_lookup "token_info" creds = Some (JObj info) ->
  dict_lookup "access_token" info = Some tok ->
  truthy tok = true ->
  dict_lookup "expires_at" info = Some (JNum expires_at) ->
  (0 <= utcnow_check env)%Q ->
  (utcnow_check env < expires_at)%Q ->
  try_reuse env self w
  = (set_global_client_id cid w,
     mkLocals (Some (JObj creds)) (Some secret), Reuse tok).
Proof.
  intros Hf Hc Hs Hi Ha Ht He H0 Hlt.
  unfold try_reuse. rewrite Hf. simpl.
  rewrite Hc, Hs. simpl. rewrite Hi. simpl. rewrite Ha, He, Ht. simpl.
  assert (Qeq_bool expires_at 0 = false) as ->.
  { destruct (Qeq_bool expires_at 0) eqn:E; [|reflexivity].
    apply Qeq_bool_iff in E. rewrite E in Hlt.
    exfalso. apply (Qlt_not_le _ _ Hlt H0). }
  simpl. rewrite Qltb_true by exact Hlt. reflexivity.
Qed.

(** A refresh that is answered with 200 or 201 and a json object. *)
Lemma generate_token_refresh_ok (env : Env) (self : anbima_api) (w : World)
    (creds data : list (string * json)) (cid secret : json) (n : Q) :
  fs w !! token_file self = Some (Doc (JObj creds)) ->
  dict_lookup "client_id" creds = Some cid ->
  dict_lookup "client_secret" creds = Some secret ->
  cache_stale (utcnow_check env) creds \/ cache_broken creds ->
  (status_code (token_endpoint env) = 200 \/
   status_code (token_endpoint env) = 201)%Z ->
  body (token_endpoint env) = Some (JObj data) ->
  stated_lifetime data n ->
  generate_token env self w
  = (set_token (match dict_lookup "access_token" data with
                | Some v => v
                | None => JNull
                end) self,
     write_file (token_file self)
       (JObj (dict_store "token_info"
                (JObj [("access_token",
                        match dict_lookup "access_token" data with
                        | Some v => v
                        | None => JNull
                        end);
                       ("expires_at", JNum (utcnow_save env + n - 60))])
                creds))
       (emit (Post token_url cid secret) (set_global_client_id cid w)),
     Ok tt).
Proof.
  intros Hf Hc Hs Hcache Hst Hb Hn.
  rewrite (generate_token_refresh_step env self w creds cid secret
             (try_reuse_refresh env self w creds cid secret Hf Hc Hs Hcache)).
  cbv zeta. rewrite (is_200_or_201_true _ Hst), Hb. simpl get. cbn iota.
  destruct Hn as [Hnone ->|Hsome]; simpl.
  - rewrite Hnone. reflexivity.
  - rewrite Hsome. reflexivity.
Qed.

(** X2: round trip of the cache.  After a refresh that stored a non-empty
    token, a second [generate_token] whose clock reads before the stored
    expiry changes nothing: same token, same files, no new event. *)
Theorem refreshed_token_is_reused (env env2 : Env) (self : anbima_api)
    (w : World) (creds data : list (string * json)) (cid secret tok : json)
    (expires_in : Q) :
  fs w !! token_file self = Some (Doc (JObj creds)) ->
  dict_lookup "client_id" creds = Some cid ->
  dict_lookup "client_secret" creds = Some secret ->
  cache_stale (utcnow_check env) creds \/ cache_broken creds ->
  (status_code (token_endpoint env) = 200 \/
   status_code (token_endpoint env) = 201)%Z ->
  body (token_endpoint env) = Some (JObj data) ->
  dict_lookup "access_token" data = Some tok ->
  truthy tok = true ->
  stated_lifetime data expires_in ->
  (0 <= utcnow_check env2)%Q ->
  (utcnow_check env2 < utcnow_save env + expires_in - 60)%Q ->
  exists (self1 : anbima_api) (w1 : World),
    generate_token env self w = (self1, w1, Ok tt) /\
    token self1 = tok /\
    generate_token env2 self1 w1 = (self1, w1, Ok tt).
Proof.
  intros Hf Hc Hs Hcache Hst Hb Ha Ht Hn H0 Hlt.
  pose proof (generate_token_refresh_ok env self w creds data cid secret
                expires_in Hf Hc Hs Hcache Hst Hb Hn) as Hgen.
  rewrite Ha in Hgen.
  eexists _, _. split; [exact Hgen|]. split; [reflexivity|].
  unfold generate_token.
  rewrite (try_reuse_cached env2 _ _
             (dict_store "token_info"
                (JObj [("access_token", tok);
                       ("expires_at",
                        JNum (utcnow_save env + expires_in - 60))]) creds)
             [("access_token", tok);
              ("expires_at", JNum (utcnow_save env + expires_in - 60))]
             cid secret tok (utcnow_save env + expires_in - 60)).
  - reflexivity.
  - apply lookup_insert_eq.
  - rewrite dict_lookup_store_ne by discriminate. exact Hc.
  - rewrite dict_lookup_store_ne by discriminate. exact Hs.
  - apply dict_lookup_store_eq.
  - reflexivity.
  - exact Ht.
  - reflexivity.
  - exact H0.
  - exact Hlt.
Qed.

(** X3: a cache entry that makes the try block raise ([token_info] that is
    not a dict, [expires_at] that is not a number) is treated like an
    expired one: the exception is swallowed, one request is sent, and a
    200 or 201 answer replaces the entry in the file, the other fields
    being kept. *)
Theorem broken_cache_is_refreshed (env : Env) (self : anbima_api)
    (w : World) (creds data : list (string * json)) (cid secret tok : json)
    (expires_in : Q) :
  fs w !! token_file self = Some (Doc (JObj creds)) ->
  dict_lookup "client_id" creds = Some cid ->
  dict_lookup "client_secret" creds = Some secret ->
  cache_broken creds ->
  (status_code (token_endpoint env) = 200 \/
   status_code (token_endpoint env) = 201)%Z ->
  body (token_endpoint env) = Some (JObj data) ->
  dict_lookup "access_token" data = Some tok ->
  stated_lifetime data expires_in ->
  exists (w' : World) (saved : list (string * json)),
    generate_token env self w = (set_token tok self, w', Ok tt) /\
    fs w' !! token_file self = Some (Doc (JObj saved)) /\
    dict_lookup "token_info" saved
    = Some (JObj [("access_token", tok);
                  ("expires_at",
                   JNum (utcnow_save env + expires_in - 60))]) /\
    (forall k, k <> "token_info" ->
               dict_lookup k saved = dict_lookup k creds) /\
    trace w' = (trace w ++ [Post token_url cid secret;
                            FileWrite (token_file self) (JObj saved)])%list.
Proof.
  intros Hf Hc Hs Hbroken Hst Hb Ha Hn.
  pose proof (generate_token_refresh_ok env self w creds data cid secret
                expires_in Hf Hc Hs (or_intror Hbroken) Hst Hb Hn) as H.
  rewrite Ha in H.
  eexists _, _. split; [exact H|].
  split; [apply lookup_insert_eq|].
  split; [apply dict_lookup_store_eq|].
  split; [intros k Hk; apply dict_lookup_store_ne; exact Hk|].
  simpl. rewrite <- app_assoc. reflexivity.
Qed.

(** X4: a credentials document from which [client_id] or [client_secret]
    cannot be read (a missing key, or a document that is not a dict)
    makes [generate_token] raise NameError or UnboundLocalError while it
    builds the request: nothing is sent and no file changes. *)
Theorem credentials_without_client_fields (env : Env) (self : anbima_api)
    (w : World) (doc : json) :
  fs w !! token_file self = Some (Doc doc) ->
  (exists e, getitem doc "client_id" = Raise e) \/
  (exists e, getitem doc "client_secret" = Raise e) ->
  exists (w' : World) (e : exn),
    generate_token env self w = (self, w', Raise e) /\
    (e = NameError "client_id" \/ e = UnboundLocalError "client_secret") /\
    trace w' = trace w /\ fs w' = fs w.
Proof.
  intros Hf Hmiss. unfold generate_token, try_reuse. rewrite Hf.
  destruct (getitem doc "client_id") as [cid|e1] eqn:E1.
  - destruct Hmiss as [[e He]|[e He]]; [discriminate|].
    rewrite He. cbn.
    eexists _, _. split; [reflexivity|]. repeat split. right. reflexivity.
  - cbn. destruct (global_client_id w); cbn;
      eexists _, _; (split; [reflexivity|]); repeat split; tauto.
Qed.

(** X5: a 200 or 201 answer whose [expires_in] is not a number (a string,
    null, a list) makes [generate_token] raise TypeError after
    [self.token] has been replaced: the object holds the new token while
    the file still holds the old credentials. *)
Theorem bad_expires_in_leaves_token_unsaved (env : Env) (self : anbima_api)
    (w : World) (creds data : list (string * json)) (cid secret tok v : json) :
  fs w !! token_file self = Some (Doc (JObj creds)) ->
  dict_lookup "client_id" creds = Some cid ->
  dict_lookup "client_secret" creds = Some secret ->
  cache_stale (utcnow_check env) creds \/ cache_broken creds ->
  (status_code (token_endpoint env) = 200 \/
   status_code (token_endpoint env) = 201)%Z ->
  body (token_endpoint env) = Some (JObj data) ->
  dict_lookup "access_token" data = Some tok ->
  dict_lookup "expires_in" data = Some v ->
  as_number v = Raise TypeError ->
  exists (self' : anbima_api) (w' : World),
    generate_token env self w = (self', w', Raise TypeError) /\
    token self' = tok /\
    token_file self' = token_file self /\
    fs w' = fs w /\
    fs w' !! token_file self = Some (Doc (JObj creds)) /\
    trace w' = (trace w ++ [Post token_url cid secret])%list.
Proof.
  intros Hf Hc Hs Hcache Hst Hb Ha Hv Hnum.
  pose proof (generate_token_refresh_step env self w creds cid secret
                (try_reuse_refresh env self w creds cid secret
                   Hf Hc Hs Hcache)) as Hgen.
  cbv zeta in Hgen.
  rewrite (is_200_or_201_true _ Hst), Hb in Hgen. simpl get in Hgen.
  rewrite Ha, Hv in Hgen. simpl in Hgen. rewrite Hnum in Hgen.
  simpl in Hgen.
  eexists _, _. split; [exact Hgen|].
  split; [reflexivity|]. split; [reflexivity|]. split; [reflexivity|].
  split; [exact Hf|reflexivity].
Qed.

(** X6: a 200 or 201 answer whose body is not json, or is json but not an
    object, makes [generate_token] raise (JSONDecodeError, AttributeError)
    with the token and the files as before. *)
Theorem unusable_token_answer_raises (env : Env) (self : anbima_api)
    (w : World) (creds : list (string * json)) (cid secret : json) :
  fs w !! token_file self = Some (Doc (JObj creds)) ->
  dict_lookup "client_id" creds = Some cid ->
  dict_lookup "client_secret" creds = Some secret ->
  cache_stale (utcnow_check env) creds \/ cache_broken creds ->
  (status_code (token_endpoint env) = 200 \/
   status_code (token_endpoint env) = 201)%Z ->
  (forall data, body (token_endpoint env) <> Some (JObj data)) ->
  exists (w' : World) (e : exn),
    generate_token env self w = (self, w', Raise e) /\
    (body (token_endpoint env) = None -> e = JSONDecodeError) /\
    (body (token_endpoint env) <> None -> e = AttributeError) /\
    fs w' = fs w /\
    trace w' = (trace w ++ [Post token_url cid secret])%list.
Proof.
  intros Hf Hc Hs Hcache Hst Hbody.
  pose proof (generate_token_refresh_step env self w creds cid secret
                (try_reuse_refresh env self w creds cid secret
                   Hf Hc Hs Hcache)) as Hgen.
  cbv zeta in Hgen. rewrite (is_200_or_201_true _ Hst) in Hgen.
  destruct (body (token_endpoint env)) as [data|] eqn:Hb.
  - destruct data as [| | | | |d];
      try (eexists _, _; split; [exact Hgen|];
           split; [discriminate|]; split; [reflexivity|];
           split; reflexivity).
    exfalso. apply (Hbody d). reflexivity.
  - eexists _, _. split; [exact Hgen|].
    split; [reflexivity|]. split; [congruence|]. split; reflexivity.
Qed.

(** X7: whatever the files, the clock and the endpoint, a call of
    [generate_token] touches no file but the token file, and ends in one
    of four ways: it returns having done nothing or having sent one
    request and written the token file once; it raises having done
    nothing or having sent one request, and then no file has changed. *)
Theorem generate_token_effects (env : Env) (self self' : anbima_api)
    (w w' : World) (r : result unit) :
  generate_token env self w = (self', w', r) ->
  token_file self' = token_file self /\
  (forall p, p <> token_file self -> fs w' !! p = fs w !! p) /\
  (forall e, r = Raise e -> fs w' = fs w) /\
  exists evs,
    trace w' = (trace w ++ evs)%list /\
    token_effects (token_file self) r evs.
Proof.
  unfold generate_token, try_reuse. intros H.
  repeat (case_match; simplify_eq; simpl in *; simplify_eq);
    (split; [reflexivity|]);
    (split; [intros p Hp; try reflexivity;
             simpl; rewrite lookup_insert_ne by congruence; reflexivity|]);
    (split; [intros e' He'; try discriminate; reflexivity|]);
    first
      [ exists []; split; [symmetry; apply app_nil_r|constructor]
      | eexists [_]; split; [reflexivity|constructor]
      | eexists [_; _]; split; [rewrite <- app_assoc; reflexivity
                               |constructor] ].
Qed.

(** ** Fetching: effects of one request and of the loop, whole runs *)

(** X8: [get_data_by_date] never changes a file or the module global and
    adds at most one event, the request for [url?data=date] carrying
    [self.token]; without a token it raises before sending; and it
    returns data only after that request was sent and answered with 200
    and a json body, which is what it returns. *)
Theorem get_data_by_date_effects (env : Env) (self : anbima_api)
    (w w' : World) (url date : string) (r : result payload) :
  get_data_by_date env self w url date = (w', r) ->
  fs w' = fs w /\
  global_client_id w' = global_client_id w /\
  (truthy (token self) = false ->
     r = Raise TokenNotGenerated /\ trace w' = trace w) /\
  (trace w' = trace w \/
   exists cid tok,
     token self = JStr tok /\
     trace w' = (trace w ++ [HttpGet (url ++ "?data=" ++ date) cid tok])%list) /\
  (forall data, r = Ok data ->
     status_code (data_endpoint env (url ++ "?data=" ++ date)) = 200%Z /\
     body (data_endpoint env (url ++ "?data=" ++ date)) = Some data /\
     trace w' <> trace w).
Proof.
  unfold get_data_by_date. intros H.
  destruct (truthy (token self)) eqn:Ht; simpl in H.
  2:{ injection H as <- <-. repeat split; try discriminate. left. reflexivity. }
  destruct (global_client_id w) as [cid|] eqn:Hg.
  2:{ injection H as <- <-. repeat split; try discriminate; try congruence.
      left. reflexivity. }
  destruct (is_str cid) as [c|] eqn:Hc.
  2:{ injection H as <- <-. repeat split; try discriminate; try congruence.
      left. reflexivity. }
  destruct (is_str (token self)) as [t|] eqn:Htok.
  2:{ injection H as <- <-. repeat split; try discriminate; try congruence.
      left. reflexivity. }
  assert (Htoken : token self = JStr t).
  { destruct (token self); simpl in Htok; congruence. }
  assert (Hsent : forall l : list event, (l ++ [HttpGet (url ++ "?data=" ++ date) c t])%list <> l).
  { intros l E. apply (f_equal (@length event)) in E.
    rewrite length_app in E. simpl in E. lia. }
  destruct (Z.eqb_spec (status_code (data_endpoint env (url ++ "?data=" ++ date))) 200)
    as [E|E].
  - destruct (body _) as [data|] eqn:Hb; injection H as <- <-;
      (split; [reflexivity|]); (split; [exact Hg|]);
      (split; [discriminate|]);
      (split; [right; exists c, t; split; [exact Htoken|reflexivity]|]).
    + intros d [= <-]. repeat split; [exact E|apply Hsent].
    + discriminate.
  - injection H as <- <-.
    split; [reflexivity|]. split; [exact Hg|]. split; [discriminate|].
    split; [right; exists c, t; split; [exact Htoken|reflexivity]|].
    discriminate.
Qed.

Lemma get_data_by_date_cases (env : Env) (api : anbima_api) (w : World)
    (date : Z) :
  (exists e,
     get_data_by_date env api w url_request (Date.strftime date)
     = (w, Raise e)) \/
  (exists cid tok r,
     get_data_by_date env api w url_request (Date.strftime date)
     = (emit (HttpGet (url_for date) cid tok) w, r)).
Proof.
  unfold get_data_by_date.
  destruct (truthy (token api)); simpl; [|left; eauto].
  destruct (global_client_id w) as [cid|]; [|left; eauto].
  destruct (is_str cid) as [c|]; [|left; eauto].
  destruct (is_str (token api)) as [t|]; [|left; eauto].
  right. fold (url_for date).
  destruct (status_code _ =? 200)%Z; [destruct (body _)|]; eauto.
Qed.

(** X9: whatever the endpoint answers, the loop over the dates changes no
    file and adds only requests to the trace: one for each of the first
    [k] dates, in order, and none twice; when the loop ends normally every
    date has been requested. *)
Theorem fetch_loop_effects (env : Env) (api : anbima_api) (dates : list Z)
    (acc : option DataFrame) (w w' : World)
    (r : result (option DataFrame)) :
  fetch_loop env api dates acc w = (w', r) ->
  fs w' = fs w /\
  global_client_id w' = global_client_id w /\
  exists (k : nat) (evs : list event),
    (k <= length dates)%nat /\
    trace w' = (trace w ++ evs)%list /\
    length evs = k /\
    requested_urls evs = map url_for (firstn k dates) /\
    (forall res, r = Ok res -> k = length dates).
Proof.
  revert acc w. induction dates as [|d dates IH]; intros acc w H.
  - simpl in H. injection H as <- <-.
    split; [reflexivity|]. split; [reflexivity|].
    exists 0%nat, []. rewrite app_nil_r. repeat split; reflexivity.
  - simpl in H.
    destruct (get_data_by_date_cases env api w d)
      as [(e & Hget)|(cid & tok & r0 & Hget)]; rewrite Hget in H.
    + injection H as <- <-.
      split; [reflexivity|]. split; [reflexivity|].
      exists 0%nat, []. rewrite app_nil_r.
      repeat split; try reflexivity; [simpl; lia|discriminate].
    + destruct r0 as [data|e].
      * apply IH in H.
        destruct H as (Hfs & Hg & k & evs & Hk & Htr & Hlen & Hurls & Hok).
        split; [exact Hfs|]. split; [exact Hg|].
        exists (S k), (HttpGet (url_for d) cid tok :: evs).
        split; [simpl; lia|].
        split; [rewrite Htr; simpl; rewrite <- app_assoc; reflexivity|].
        split; [simpl; lia|].
        split; [simpl; rewrite Hurls; reflexivity|].
        intros res Hres. simpl. rewrite (Hok res Hres). reflexivity.
      * injection H as <- <-.
        split; [reflexivity|]. split; [reflexivity|].
        exists 1%nat, [HttpGet (url_for d) cid tok].
        repeat split; try reflexivity; [simpl; lia|discriminate].
Qed.

Lemma get_data_by_date_ok_inv (env : Env) (api : anbima_api) (w w' : World)
    (date : Z) (data : payload) :
  get_data_by_date env api w url_request (Date.strftime date) = (w', Ok data) ->
  body (data_endpoint env (url_for date)) = Some data.
Proof.
  unfold get_data_by_date.
  destruct (truthy (token api)); simpl; [|discriminate].
  destruct (global_client_id w) as [cid|]; [|discriminate].
  destruct (is_str cid) as [c|]; [|discriminate].
  destruct (is_str (token api)) as [t|]; [|discriminate].
  fold (url_for date).
  destruct (status_code _ =? 200)%Z; [|discriminate].
  destruct (body _); [|discriminate]. congruence.
Qed.

(** The table handed to [volatility] keeps [frame_ok]. *)
Lemma fetch_loop_frame_ok (env : Env) (api : anbima_api) (dates : list Z) :
  forall (acc acc' : option DataFrame) (w w' : World),
    (forall df, acc = Some df -> frame_ok df) ->
    fetch_loop env api dates acc w = (w', Ok acc') ->
    forall df, acc' = Some df -> frame_ok df.
Proof.
  induction dates as [|d dates IH]; intros acc acc' w w' Hacc H.
  - simpl in H. injection H as <- <-. exact Hacc.
  - simpl in H.
    destruct (get_data_by_date env api w url_request (Date.strftime d))
      as [w1 [data|e]]; [|discriminate].
    apply (IH _ _ _ _ (fun df E =>
             eq_ind _ frame_ok (frame_ok_assemble _ data acc Hacc) _
                    (Some_inj _ _ E)) H).
Qed.

Lemma flat_map_nonempty {A B} (f : A -> list B) (l : list A) (x : A) :
  In x l -> f x <> [] -> flat_map f l <> [].
Proof.
  intros Hin Hne E. induction l as [|y l IH]; [destruct Hin|].
  simpl in E. apply app_eq_nil in E. destruct E as [E1 E2].
  destruct Hin as [->|Hin]; [contradiction|]. apply IH; assumption.
Qed.

(** X10: a run in which the token is at hand, every day is answered with
    200 and some day brings a record ends normally: [main] has requested
    every day once, in order, and then printed the result of [volatility]
    on the assembled table for the instrument type LTN. *)
Theorem main_prints_volatility (env : Env) (cal : Bizdays.Calendar)
    (bdays_range : Z) (path : string) (w w1 : World) (api : anbima_api)
    (tok cid : string) (p : Z -> payload) (dates : list Z) (d0 : Z) :
  generate_token env (init path) w = (api, w1, Ok tt) ->
  token api = JStr tok -> tok <> "" ->
  global_client_id w1 = Some (JStr cid) ->
  dates_in_range cal (today env) bdays_range = Ok dates ->
  (forall d, In d dates ->
     status_code (data_endpoint env (url_for d)) = 200%Z /\
     body (data_endpoint env (url_for d)) = Some (p d)) ->
  In d0 dates -> records_of (p d0) <> [] ->
  exists (w2 : World) (result_df : DataFrame) (sigma : gmap string Np.float),
    rows result_df = flat_map (fun d => rows_for d (p d)) dates /\
    volatility result_df "LTN" = Ok sigma /\
    main env cal bdays_range path w = (w2, Ok tt) /\
    fs w2 = fs w1 /\
    trace w2 = (trace w1 ++ sent cid tok dates ++ [Print sigma])%list.
Proof.
  intros Hgen Ht Hne Hg Hdates Hall Hd0 Hrec.
  destruct (fetch_loop_all_ok env api tok cid p dates Ht Hne Hall None w1 Hg)
    as (w' & acc' & Hloop & Hsome & _ & Hrows & Hfs & _ & Htr).
  destruct acc' as [df|].
  2:{ exfalso. apply Hsome; [|reflexivity]. intros E. rewrite E in Hd0.
      destruct Hd0. }
  simpl in Hrows.
  assert (Hok : frame_ok df).
  { apply (fetch_loop_frame_ok env api dates None (Some df) w1 w');
      [discriminate|exact Hloop|reflexivity]. }
  assert (Hrows_ne : rows df <> []).
  { rewrite Hrows. apply (flat_map_nonempty _ _ d0 Hd0).
    unfold rows_for. intros E. apply map_eq_nil in E. contradiction. }
  destruct (volatility_with_columns df "LTN") as (sigma & Hvol & _);
    try (apply Hok; [exact Hrows_ne|simpl; tauto]).
  exists (emit (Print sigma) w'), df, sigma.
  split; [exact Hrows|]. split; [exact Hvol|].
  split; [unfold main; rewrite Hgen, Hdates, Hloop, Hvol; reflexivity|].
  split; [exact Hfs|].
  simpl. rewrite Htr, <- app_assoc. reflexivity.
Qed.

Lemma fetch_loop_without_records (env : Env) (api : anbima_api)
    (p : Z -> payload) (dates : list Z) :
  (forall d, In d dates ->
     body (data_endpoint env (url_for d)) = Some (p d) /\
     records_of (p d) = []) ->
  forall (acc acc' : option DataFrame) (w w' : World),
    (forall df, acc = Some df -> has_column df "tipo_titulo" = false) ->
    fetch_loop env api dates acc w = (w', Ok acc') ->
    forall df, acc' = Some df -> has_column df "tipo_titulo" = false.
Proof.
  induction dates as [|d dates IH]; intros Hall acc acc' w w' Hacc H.
  - simpl in H. injection H as <- <-. exact Hacc.
  - simpl in H.
    destruct (get_data_by_date env api w url_request (Date.strftime d))
      as [w1 [data|e]] eqn:Hget; [|discriminate].
    apply get_data_by_date_ok_inv in Hget.
    destruct (Hall d (or_introl eq_refl)) as [Hb Hrec].
    assert (data = p d) as -> by congruence.
    refine (IH (fun d' H' => Hall d' (or_intror H')) _ _ _ _ _ H).
    intros df [= <-]. unfold assemble. rewrite Hrec.
    destruct acc as [df0|]; [|reflexivity].
    rewrite has_column_concat, (Hacc df0 eq_refl). reflexivity.
Qed.

(** X11: a run in which every day is answered with 200 and an empty
    array requests every day and then ends with KeyError for the column
    [tipo_titulo]: the assembled frame has no record column, and nothing
    is printed. *)
Theorem main_without_records_raises (env : Env) (cal : Bizdays.Calendar)
    (bdays_range : Z) (path : string) (w w1 : World) (api : anbima_api)
    (tok cid : string) (p : Z -> payload) (dates : list Z) :
  generate_token env (init path) w = (api, w1, Ok tt) ->
  token api = JStr tok -> tok <> "" ->
  global_client_id w1 = Some (JStr cid) ->
  dates_in_range cal (today env) bdays_range = Ok dates ->
  dates <> [] ->
  (forall d, In d dates ->
     status_code (data_endpoint env (url_for d)) = 200%Z /\
     body (data_endpoint env (url_for d)) = Some (p d) /\
     records_of (p d) = []) ->
  exists w2 : World,
    main env cal bdays_range path w = (w2, Raise (KeyError "tipo_titulo")) /\
    trace w2 = (trace w1 ++ sent cid tok dates)%list.
Proof.
  intros Hgen Ht Hne Hg Hdates Hnonempty Hall.
  destruct (fetch_loop_all_ok env api tok cid p dates Ht Hne
              (fun d H => conj (proj1 (Hall d H)) (proj1 (proj2 (Hall d H))))
              None w1 Hg)
    as (w' & acc' & Hloop & Hsome & _ & _ & _ & _ & Htr).
  destruct acc' as [df|]; [|exfalso; apply (Hsome Hnonempty); reflexivity].
  assert (Hcol : has_column df "tipo_titulo" = false).
  { apply (fetch_loop_without_records env api p dates
             (fun d H => conj (proj1 (proj2 (Hall d H)))
                              (proj2 (proj2 (Hall d H))))
             None (Some df) w1 w'); [discriminate|exact Hloop|reflexivity]. }
  exists w'. split; [|exact Htr].
  unfold main. rewrite Hgen, Hdates, Hloop.
  unfold volatility, require_column. rewrite Hcol. reflexivity.
Qed.

(** ** The volatility calculator: keys, inputs read, small and static groups *)

Lemma volatility_loop_keys (df : DataFrame) (ms : list string) :
  forall sigma sigma' : gmap string Np.float,
    volatility_loop df ms sigma = Ok sigma' ->
    forall m, is_Some (sigma' !! m) <-> is_Some (sigma !! m) \/ In m ms.
Proof.
  induction ms as [|m0 ms IH]; intros sigma sigma' H m.
  - simpl in H. injection H as <-. simpl. tauto.
  - simpl in H.
    destruct (maturity_volatility df m0) as [v|e]; [|discriminate].
    simpl in H. rewrite (IH _ _ H m). simpl.
    destruct (String.eqb_spec m m0) as [->|Hne].
    + rewrite lookup_insert_eq. split; [tauto|]. intros _. left. eauto.
    + rewrite lookup_insert_ne by congruence.
      split; [tauto|]. intros [?|[?|?]]; [tauto|congruence|tauto].
Qed.

(** X12: the mapping [volatility] returns has exactly one key per
    maturity that occurs among the rows of the requested instrument type,
    and no other key. *)
Theorem volatility_keys (df : DataFrame) (asset_tp : string)
    (sigma : gmap string Np.float) :
  volatility df asset_tp = Ok sigma ->
  forall m,
    is_Some (sigma !! m) <->
    exists r, In r (rows df) /\ tipo_titulo r = asset_tp /\
              data_vencimento r = m.
Proof.
  unfold volatility, require_column. intros H m.
  destruct (has_column df "tipo_titulo"); [|discriminate]. simpl in H.
  rewrite has_column_rows in H.
  destruct (has_column df "data_vencimento"); [|discriminate]. simpl in H.
  rewrite (volatility_loop_keys _ _ _ _ H m), lookup_empty, unique_In,
    in_map_iff.
  split.
  - intros [[x Hx]|(r & Hr & Hin)]; [discriminate|].
    apply filter_In in Hin. destruct Hin as [Hin Htp].
    apply String.eqb_eq in Htp. eauto.
  - intros (r & Hin & Htp & Hm). right. exists r. split; [exact Hm|].
    apply filter_In. split; [exact Hin|]. apply String.eqb_eq. exact Htp.
Qed.

Lemma observation_filter_tipo (asset_tp : string) (l1 l2 : list Row) :
  map observation l1 = map observation l2 ->
  map observation
    (List.filter (fun r => String.eqb (tipo_titulo r) asset_tp) l1)
  = map observation
      (List.filter (fun r => String.eqb (tipo_titulo r) asset_tp) l2).
Proof.
  revert l2. induction l1 as [|a l1 IH]; intros [|b l2] H;
    try discriminate; [reflexivity|].
  simpl in H. injection H as Ht Hv Hr Hl. simpl. rewrite Ht.
  destruct (String.eqb (tipo_titulo b) asset_tp); simpl.
  - unfold observation at 1 3. rewrite Ht, Hv, Hr. f_equal. apply IH, Hl.
  - apply IH, Hl.
Qed.

Lemma observation_series (maturity : string) (l1 l2 : list Row) :
  map observation l1 = map observation l2 ->
  map taxa_indicativa
    (List.filter (fun r => String.eqb (data_vencimento r) maturity) l1)
  = map taxa_indicativa
      (List.filter (fun r => String.eqb (data_vencimento r) maturity) l2).
Proof.
  revert l2. induction l1 as [|a l1 IH]; intros [|b l2] H;
    try discriminate; [reflexivity|].
  simpl in H. injection H as Ht Hv Hr Hl. simpl. rewrite Hv.
  destruct (String.eqb (data_vencimento b) maturity); simpl.
  - rewrite Hr. f_equal. apply IH, Hl.
  - apply IH, Hl.
Qed.

Lemma observation_maturities (l1 l2 : list Row) :
  map observation l1 = map observation l2 ->
  map data_vencimento l1 = map data_vencimento l2.
Proof.
  revert l2. induction l1 as [|a l1 IH]; intros [|b l2] H;
    try discriminate; [reflexivity|].
  simpl in H. injection H as Ht Hv Hr Hl. simpl. rewrite Hv. f_equal.
  apply IH, Hl.
Qed.

Lemma maturity_volatility_observations (cols : list string)
    (l1 l2 : list Row) (m : string) :
  map observation l1 = map observation l2 ->
  maturity_volatility {| columns := cols; rows := l1 |} m
  = maturity_volatility {| columns := cols; rows := l2 |} m.
Proof.
  intros H. unfold maturity_volatility, require_column, has_column.
  simpl columns. simpl rows. rewrite (observation_series m l1 l2 H).
  reflexivity.
Qed.

Lemma volatility_loop_observations (cols : list string) (l1 l2 : list Row)
    (ms : list string) :
  map observation l1 = map observation l2 ->
  forall sigma : gmap string Np.float,
    volatility_loop {| columns := cols; rows := l1 |} ms sigma
    = volatility_loop {| columns := cols; rows := l2 |} ms sigma.
Proof.
  intros H. induction ms as [|m ms IH]; intros sigma; [reflexivity|].
  simpl. rewrite (maturity_volatility_observations cols l1 l2 m H).
  destruct (maturity_volatility _ m); simpl; [apply IH|reflexivity].
Qed.

(** X13: the result of [volatility] depends only on the columns' presence
    and on the instrument type, maturity and rate cells of the rows of the
    requested type, in their order: rows of other types and the
    [data_referencia] cells play no part (the rows are not sorted by
    date). *)
Theorem volatility_reads_only_observations (df1 df2 : DataFrame)
    (asset_tp : string) :
  columns df1 = columns df2 ->
  map observation
    (List.filter (fun r => String.eqb (tipo_titulo r) asset_tp) (rows df1))
  = map observation
      (List.filter (fun r => String.eqb (tipo_titulo r) asset_tp) (rows df2)) ->
  volatility df1 asset_tp = volatility df2 asset_tp.
Proof.
  intros Hc Hobs.
  assert (Hcol : forall c, has_column df1 c = has_column df2 c).
  { intros c. unfold has_column. rewrite Hc. reflexivity. }
  unfold volatility, require_column. rewrite !has_column_rows, !Hcol.
  unfold mbind, result_bind, rbind.
  destruct (has_column df2 "tipo_titulo"); [|reflexivity].
  destruct (has_column df2 "data_vencimento"); [|reflexivity].
  cbv beta iota zeta. cbn [rows].
  rewrite (observation_maturities _ _ Hobs), Hc.
  apply volatility_loop_observations, Hobs.
Qed.

Lemma maturity_in_group (df : DataFrame) (asset_tp m : string) :
  maturity_group df asset_tp m <> [] ->
  existsb (String.eqb m)
    (map data_vencimento
       (List.filter (fun r => String.eqb (tipo_titulo r) asset_tp)
                    (rows df))) = true.
Proof.
  intros Hne. unfold maturity_group in Hne.
  destruct (List.filter _ (List.filter _ _)) as [|r l] eqn:F;
    [contradiction|].
  assert (Hin : In r (r :: l)) by (left; reflexivity).
  rewrite <- F in Hin. apply filter_In in Hin. destruct Hin as [Hin Hm].
  apply String.eqb_eq in Hm. apply existsb_eqb_In. rewrite <- Hm.
  apply in_map. exact Hin.
Qed.

(** The value stored for a maturity that occurs among the rows of the
    requested type, on a frame that keeps [frame_ok]. *)
Lemma volatility_group_value (df : DataFrame) (asset_tp m : string) :
  frame_ok df ->
  maturity_group df asset_tp m <> [] ->
  exists sigma : gmap string Np.float,
    volatility df asset_tp = Ok sigma /\
    sigma !! m
    = Some (Np.mul
              (Pd.std (Pd.diff (map log_factor (map taxa_indicativa
                 (maturity_group df asset_tp m)))))
              (Np.sqrt (Np.Fin 252))).
Proof.
  intros Hok Hne.
  assert (Hrows : rows df <> []).
  { intros E. apply Hne. unfold maturity_group. rewrite E. reflexivity. }
  destruct (volatility_with_columns df asset_tp) as (sigma & Hs & Hl);
    try (apply Hok; [exact Hrows|simpl; tauto]).
  exists sigma. split; [exact Hs|].
  rewrite Hl, (maturity_in_group df asset_tp m Hne). reflexivity.
Qed.

(** X14: a maturity observed exactly twice among the rows of the requested
    type is stored as NaN, whatever the two rates: a number needs at least
    three observations. *)
Theorem volatility_two_observations_nan (df : DataFrame)
    (asset_tp maturity : string) :
  frame_ok df ->
  length (maturity_group df asset_tp maturity) = 2%nat ->
  exists sigma : gmap string Np.float,
    volatility df asset_tp = Ok sigma /\
    sigma !! maturity = Some Np.NaN.
Proof.
  intros Hok Hlen.
  destruct (volatility_group_value df asset_tp maturity Hok)
    as (sigma & Hs & Hv).
  { intros E. rewrite E in Hlen. discriminate. }
  exists sigma. split; [exact Hs|].
  rewrite Hv, std_diff_short; [reflexivity|]. rewrite !length_map. lia.
Qed.

Lemma volatility_no_match_rows (df : DataFrame) (asset_tp : string) :
  has_column df "tipo_titulo" = true ->
  has_column df "data_vencimento" = true ->
  (forall r, In r (rows df) -> tipo_titulo r <> asset_tp) ->
  volatility df asset_tp = Ok ∅.
Proof.
  intros H1 H2 Hno. unfold volatility, require_column.
  rewrite H1, has_column_rows, H2. unfold mbind, result_bind, rbind.
  cbv beta iota zeta. cbn [rows].
  replace (List.filter _ (rows df)) with (@nil Row); [reflexivity|].
  symmetry. induction (rows df) as [|r l IH]; [reflexivity|]. simpl.
  destruct (String.eqb_spec (tipo_titulo r) asset_tp) as [E|_].
  - exfalso. apply (Hno r); [left; reflexivity|exact E].
  - apply IH. intros r' Hr'. apply Hno. right. exact Hr'.
Qed.

(** X15: on a frame that keeps [frame_ok], [volatility] returns a mapping
    exactly when the frame has the columns [tipo_titulo] and
    [data_vencimento]; otherwise it raises KeyError, for [tipo_titulo]
    when that column is missing and for [data_vencimento] when only that
    one is. *)
Theorem volatility_returns_iff_columns (df : DataFrame) (asset_tp : string) :
  frame_ok df ->
  ((exists sigma, volatility df asset_tp = Ok sigma) <->
   has_column df "tipo_titulo" = true /\
   has_column df "data_vencimento" = true) /\
  (has_column df "tipo_titulo" = false ->
   volatility df asset_tp = Raise (KeyError "tipo_titulo")) /\
  (has_column df "tipo_titulo" = true ->
   has_column df "data_vencimento" = false ->
   volatility df asset_tp = Raise (KeyError "data_vencimento")).
Proof.
  intros Hok. split; [split|split].
  - intros [sigma H]. unfold volatility, require_column in H.
    destruct (has_column df "tipo_titulo"); [|discriminate].
    rewrite has_column_rows in H.
    destruct (has_column df "data_vencimento"); [|discriminate].
    split; reflexivity.
  - intros [H1 H2].
    destruct (rows df) as [|r l] eqn:Hrows.
    + exists ∅. apply volatility_no_match_rows; [exact H1|exact H2|].
      rewrite Hrows. intros r [].
    + destruct (volatility_with_columns df asset_tp) as (sigma & Hs & _);
        [exact H1|exact H2| |eauto].
      apply Hok; [rewrite Hrows; discriminate|simpl; tauto].
  - intros H1. unfold volatility, require_column. rewrite H1. reflexivity.
  - intros H1 H2. unfold volatility, require_column.
    rewrite H1, has_column_rows, H2. reflexivity.
Qed.

Section StaticSeries.

Local Open Scope R_scope.

Lemma sum_zeros_from (n : nat) (a : R) :
  fold_left Np.add (repeat (Np.Fin 0) n) (Np.Fin a) = Np.Fin a.
Proof.
  induction n as [|n IH]; [reflexivity|]. simpl.
  replace (a + 0) with a by ring. exact IH.
Qed.

Lemma count_valid_zeros (n : nat) :
  Pd.count_valid (Np.NaN :: repeat (Np.Fin 0) n) = n.
Proof.
  unfold Pd.count_valid. simpl. induction n as [|n IH]; [reflexivity|].
  simpl. rewrite IH. reflexivity.
Qed.

Lemma diff_from_constant (a : R) (n : nat) :
  Pd.diff_from (Np.Fin a) (repeat (Np.Fin a) n) = repeat (Np.Fin 0) n.
Proof.
  induction n as [|n IH]; [reflexivity|]. simpl. rewrite IH.
  replace (a + - a) with 0 by ring. reflexivity.
Qed.

(** A series of at least three equal finite values has standard deviation
    zero after differencing. *)
Lemma std_diff_static (a : R) (n : nat) :
  (3 <= n)%nat -> Pd.std (Pd.diff (repeat (Np.Fin a) n)) = Np.Fin 0.
Proof.
  intros Hn. destruct n as [|k]; [lia|].
  simpl repeat. unfold Pd.diff. rewrite diff_from_constant.
  unfold Pd.std, Pd.nanvar. rewrite count_valid_zeros.
  destruct (Nat.leb_spec k 1) as [?|_]; [lia|].
  cbv zeta. unfold Pd.putmask0, Np.sum, Np.of_nat.
  assert (Hk : 0 < INR k) by (apply lt_0_INR; lia).
  assert (Hk1 : 0 < INR (k - 1)) by (apply lt_0_INR; lia).
  cbn [map Np.isnan]. rewrite !map_repeat. cbn [Np.isnan].
  change (Np.Fin 0 :: repeat (Np.Fin 0) k) with (repeat (Np.Fin 0) (S k)).
  rewrite sum_zeros_from, (div_fin_pos 0 (INR k) Hk).
  cbn [Np.sub Np.neg Np.add Np.mul].
  replace ((0 / INR k + - 0) * (0 / INR k + - 0)) with 0
    by (unfold Rdiv; ring).
  change (Np.Fin 0 :: repeat (Np.Fin 0) k) with (repeat (Np.Fin 0) (S k)).
  rewrite sum_zeros_from, (div_fin_pos 0 (INR (k - 1)) Hk1).
  unfold Np.sqrt. rewrite sgn_zero by (unfold Rdiv; ring).
  f_equal. replace (0 / INR (k - 1)) with 0 by (unfold Rdiv; ring).
  apply sqrt_0.
Qed.

Lemma log_factor_finite (x : R) :
  -100 < x -> log_factor (Np.Fin x) = Np.Fin (ln (1 + x / 100)).
Proof.
  intros H. unfold log_factor. rewrite div_fin_pos by lra.
  cbn [Np.add]. unfold Np.log. rewrite sgn_pos by lra. reflexivity.
Qed.

Lemma map_constant {A B} (f : A -> B) (b : B) (l : list A) :
  List.Forall (fun a => f a = b) l -> map f l = repeat b (length l).
Proof.
  induction 1 as [|a l Ha _ IH]; [reflexivity|]. simpl.
  rewrite Ha, IH. reflexivity.
Qed.

(** X16: a maturity observed at least three times among the rows of the
    requested type, always with the same rate above -100, is stored with
    volatility zero (what the module docstring says of static data). *)
Theorem static_rates_have_zero_volatility (df : DataFrame)
    (asset_tp maturity : string) (x : R) :
  frame_ok df ->
  (3 <= length (maturity_group df asset_tp maturity))%nat ->
  List.Forall (fun r => taxa_indicativa r = Np.Fin x)
    (maturity_group df asset_tp maturity) ->
  -100 < x ->
  exists sigma : gmap string Np.float,
    volatility df asset_tp = Ok sigma /\
    sigma !! maturity = Some (Np.Fin 0).
Proof.
  intros Hok Hlen Hall Hx.
  destruct (volatility_group_value df asset_tp maturity Hok)
    as (sigma & Hs & Hv).
  { intros E. rewrite E in Hlen. simpl in Hlen. lia. }
  exists sigma. split; [exact Hs|]. rewrite Hv.
  rewrite (map_constant taxa_indicativa (Np.Fin x) _ Hall), map_repeat,
    (log_factor_finite x Hx), std_diff_static by exact Hlen.
  unfold Np.sqrt. rewrite (sgn_pos 252) by lra. cbn [Np.mul].
  do 2 f_equal. ring.
Qed.

End StaticSeries.

(** ** The number of days fetched *)

Section CalendarCount.

Local Open Scope Z_scope.

(** In an ascending list, the elements from position [i] on are those not
    below the element at [i]. *)
Lemma sorted_count_from (l : list Z) :
  StronglySorted Z.lt l ->
  forall (i : nat) (s : Z),
    nth_error l i = Some s ->
    length (List.filter (fun d => s <=? d) l) = (length l - i)%nat.
Proof.
  induction 1 as [|x l Hs IH Hall]; intros i s Hi.
  - destruct i; discriminate.
  - rewrite List.Forall_forall in Hall. destruct i as [|i]; simpl in Hi.
    + injection Hi as <-. simpl. rewrite Z.leb_refl. simpl. f_equal.
      rewrite forallb_filter_id; [reflexivity|].
      apply forallb_forall. intros y Hy. specialize (Hall y Hy).
      apply Z.leb_le. lia.
    + simpl. assert (x < s) by (apply Hall; eapply nth_error_In; eauto).
      destruct (Z.leb_spec s x); [lia|]. apply IH. exact Hi.
Qed.

(** The business days from [s] on are those of the longer range that are
    not below [s]. *)
Lemma bizdays_between_suffix (cal : Bizdays.Calendar) (a s b : Z) :
  a <= s ->
  Bizdays.bizdays_between cal s b
  = List.filter (fun d => s <=? d) (Bizdays.bizdays_between cal a b).
Proof.
  intros Has. unfold Bizdays.bizdays_between, Bizdays.days.
  destruct (Z.le_gt_cases s (b + 1)) as [Hsb|Hsb].
  - replace (Z.to_nat (b - a + 1))
      with (Z.to_nat (s - a) + Z.to_nat (b - s + 1))%nat by lia.
    rewrite seq_app, map_app, !List.filter_app.
    rewrite (filter_all_false (fun d => s <=? d)
               (List.filter _ (map _ (List.seq 0 (Z.to_nat (s - a)))))).
    + cbn [app].
      rewrite (map_seq_from (fun i => a + Z.of_nat i) (Z.to_nat (s - a))).
      rewrite (map_ext (fun i => a + Z.of_nat (Z.to_nat (s - a) + i))
                       (fun i => s + Z.of_nat i)) by (intros i; lia).
      rewrite (forallb_filter_id (fun d => s <=? d)); [reflexivity|].
      apply forallb_forall. intros d Hd. apply filter_In in Hd.
      destruct Hd as [Hd _]. apply in_map_iff in Hd.
      destruct Hd as (i & <- & _). apply Z.leb_le. lia.
    + intros d Hd. apply filter_In in Hd. destruct Hd as [Hd _].
      apply in_map_iff in Hd. destruct Hd as (i & <- & Hi).
      apply in_seq in Hi. apply Z.leb_gt. lia.
  - replace (Z.to_nat (b - s + 1)) with 0%nat by lia. simpl.
    symmetry. apply filter_all_false. intros d Hd.
    apply filter_In in Hd. destruct Hd as [Hd _].
    apply in_map_iff in Hd. destruct Hd as (i & <- & Hi).
    apply in_seq in Hi. apply Z.leb_gt. lia.
Qed.

(** X17: when today is a business day inside the calendar with at least
    [bdays_range] business days before it, the sequence [main] iterates
    over has exactly [bdays_range + 1] dates (11 for the script) and ends
    today, so the loop sends that many requests when none fails. *)
Theorem business_day_run_length (cal : Bizdays.Calendar)
    (today bdays_range : Z) :
  0 < bdays_range ->
  Bizdays.in_bounds cal today = true ->
  Bizdays.isbizday cal today = true ->
  (Z.to_nat bdays_range <
   length (Bizdays.bizdays_between cal (Bizdays.startdate cal) today))%nat ->
  exists ds,
    dates_in_range cal today bdays_range = Ok ds /\
    length ds = (Z.to_nat bdays_range + 1)%nat /\
    last ds = Some today.
Proof.
  intros Hn Hb Hbiz Hlen.
  set (P := Bizdays.bizdays_between cal (Bizdays.startdate cal) (today - 1)).
  assert (Hsplit : Bizdays.bizdays_between cal (Bizdays.startdate cal) today
                   = (P ++ [today])%list).
  { unfold Bizdays.in_bounds in Hb.
    rewrite (bizdays_between_split cal (Bizdays.startdate cal) today today)
      by lia.
    fold P. f_equal. unfold Bizdays.bizdays_between, Bizdays.days.
    replace (Z.to_nat (today - today + 1)) with 1%nat by lia.
    simpl. rewrite Z.add_0_r, Hbiz. reflexivity. }
  rewrite Hsplit, length_app in Hlen. simpl in Hlen.
  destruct (dates_in_range_history cal today bdays_range Hn Hb)
    as (s & Hds & Hnth & Hs & Hsbiz); [fold P; lia|].
  fold P in Hnth.
  exists (Bizdays.bizdays_between cal s today). split; [exact Hds|].
  split.
  - rewrite (bizdays_between_suffix cal (Bizdays.startdate cal) s today)
      by lia.
    rewrite (sorted_count_from _ (bizdays_between_sorted cal _ _)
               (length P - Z.to_nat bdays_range) s).
    + rewrite Hsplit, length_app. simpl. lia.
    + rewrite Hsplit, nth_error_app1 by lia. exact Hnth.
  - destruct (bizdays_between_last cal s today) as (d & Hl & Ht & _);
      [lia|exact Hsbiz|].
    rewrite Hl, (Ht Hbiz). reflexivity.
Qed.

End CalendarCount.

(** ** Instances of the further properties *)

Lemma token_request_failure_aborts_witness :
  exists w' : World,
    generate_token (sample_env 1000 19730 (mkResponse 401 "Unauthorized" None))
      (init "anbimaAuth.json") (world_with (sample_credentials []))
    = (init "anbimaAuth.json", w',
       Raise (TokenRequestFailed 401 "Unauthorized")) /\
    main (sample_env 1000 19730 (mkResponse 401 "Unauthorized" None))
      sample_calendar 10 "anbimaAuth.json"
      (world_with (sample_credentials []))
    = (w', Raise (TokenRequestFailed 401 "Unauthorized")) /\
    fs w' = fs (world_with (sample_credentials [])) /\
    trace w'
    = (trace (world_with (sample_credentials [])) ++
       [Post token_url (JStr "my-id") (JStr "my-secret")])%list.
Proof.
  apply (token_request_failure_aborts
           (sample_env 1000 19730 (mkResponse 401 "Unauthorized" None))
           sample_calendar 10 "anbimaAuth.json"
           (world_with (sample_credentials [])) (sample_credentials [])).
  - reflexivity.
  - reflexivity.
  - reflexivity.
  - left. apply (stale_no_access_token _ _ []); reflexivity.
  - reflexivity.
  - reflexivity.
  - discriminate.
  - discriminate.
Defined.

Lemma refreshed_token_is_reused_witness :
  exists (self1 : anbima_api) (w1 : World),
    generate_token (sample_env 1000 19730 sample_token_answer)
      (init "anbimaAuth.json") (world_with (sample_credentials []))
    = (self1, w1, Ok tt) /\
    token self1 = JStr "fresh-token" /\
    generate_token (sample_env 2000 19730 (mkResponse 500 "" None)) self1 w1
    = (self1, w1, Ok tt).
Proof.
  apply (refreshed_token_is_reused
           (sample_env 1000 19730 sample_token_answer)
           (sample_env 2000 19730 (mkResponse 500 "" None))
           (init "anbimaAuth.json") (world_with (sample_credentials []))
           (sample_credentials [])
           [("access_token", JStr "fresh-token"); ("expires_in", JNum 1800)]
           (JStr "my-id") (JStr "my-secret") (JStr "fresh-token") 1800).
  - reflexivity.
  - reflexivity.
  - reflexivity.
  - left. apply (stale_no_access_token _ _ []); reflexivity.
  - left. reflexivity.
  - reflexivity.
  - reflexivity.
  - reflexivity.
  - apply lifetime_given. reflexivity.
  - vm_compute. discriminate.
  - vm_compute. reflexivity.
Defined.

Lemma broken_cache_is_refreshed_witness :
  exists (w' : World) (saved : list (string * json)),
    generate_token (sample_env 1000 19730 sample_token_answer)
      (init "anbimaAuth.json") (world_with broken_credentials)
    = (set_token (JStr "fresh-token") (init "anbimaAuth.json"), w', Ok tt) /\
    fs w' !! token_file (init "anbimaAuth.json") = Some (Doc (JObj saved)) /\
    dict_lookup "token_info" saved
    = Some (JObj [("access_token", JStr "fresh-token");
                  ("expires_at", JNum (1000 + 1800 - 60))]) /\
    (forall k, k <> "token_info" ->
       dict_lookup k saved = dict_lookup k broken_credentials) /\
    trace w'
    = (trace (world_with broken_credentials) ++
       [Post token_url (JStr "my-id") (JStr "my-secret");
        FileWrite (token_file (init "anbimaAuth.json")) (JObj saved)])%list.
Proof.
  apply (broken_cache_is_refreshed
           (sample_env 1000 19730 sample_token_answer)
           (init "anbimaAuth.json") (world_with broken_credentials)
           broken_credentials
           [("access_token", JStr "fresh-token"); ("expires_in", JNum 1800)]).
  - reflexivity.
  - reflexivity.
  - reflexivity.
  - apply (broken_token_info _ (JStr "oops")); reflexivity.
  - left. reflexivity.
  - reflexivity.
  - reflexivity.
  - apply lifetime_given. reflexivity.
Defined.

Lemma credentials_without_client_fields_witness :
  exists (w' : World) (e : exn),
    generate_token (sample_env 1000 19730 sample_token_answer)
      (init "anbimaAuth.json")
      (world_of_doc (JObj [("client_id", JStr "my-id")]))
    = (init "anbimaAuth.json", w', Raise e) /\
    (e = NameError "client_id" \/ e = UnboundLocalError "client_secret") /\
    trace w' = trace (world_of_doc (JObj [("client_id", JStr "my-id")])) /\
    fs w' = fs (world_of_doc (JObj [("client_id", JStr "my-id")])).
Proof.
  apply (credentials_without_client_fields _ _ _
           (JObj [("client_id", JStr "my-id")])).
  - reflexivity.
  - right. exists (KeyError "client_secret"). reflexivity.
Defined.

Lemma bad_expires_in_leaves_token_unsaved_witness :
  exists (self' : anbima_api) (w' : World),
    generate_token
      (sample_env 1000 19730
         (mkResponse 200 ""
            (Some (JObj [("access_token", JStr "fresh-token");
                         ("expires_in", JStr "soon")]))))
      (init "anbimaAuth.json") (world_with (sample_credentials []))
    = (self', w', Raise TypeError) /\
    token self' = JStr "fresh-token" /\
    token_file self' = token_file (init "anbimaAuth.json") /\
    fs w' = fs (world_with (sample_credentials [])) /\
    fs w' !! token_file (init "anbimaAuth.json")
    = Some (Doc (JObj (sample_credentials []))) /\
    trace w'
    = (trace (world_with (sample_credentials [])) ++
       [Post token_url (JStr "my-id") (JStr "my-secret")])%list.
Proof.
  apply (bad_expires_in_leaves_token_unsaved
           (sample_env 1000 19730
              (mkResponse 200 ""
                 (Some (JObj [("access_token", JStr "fresh-token");
                              ("expires_in", JStr "soon")]))))
           (init "anbimaAuth.json") (world_with (sample_credentials []))
           (sample_credentials [])
           [("access_token", JStr "fresh-token"); ("expires_in", JStr "soon")]
           (JStr "my-id") (JStr "my-secret") (JStr "fresh-token")
           (JStr "soon")).
  - reflexivity.
  - reflexivity.
  - reflexivity.
  - left. apply (stale_no_access_token _ _ []); reflexivity.
  - left. reflexivity.
  - reflexivity.
  - reflexivity.
  - reflexivity.
  - reflexivity.
Defined.

Lemma unusable_token_answer_raises_witness :
  exists (w' : World) (e : exn),
    generate_token
      (sample_env 1000 19730 (mkResponse 200 "[]" (Some (JList []))))
      (init "anbimaAuth.json") (world_with (sample_credentials []))
    = (init "anbimaAuth.json", w', Raise e) /\
    (body (token_endpoint
             (sample_env 1000 19730 (mkResponse 200 "[]" (Some (JList [])))))
     = None -> e = JSONDecodeError) /\
    (body (token_endpoint
             (sample_env 1000 19730 (mkResponse 200 "[]" (Some (JList [])))))
     <> None -> e = AttributeError) /\
    fs w' = fs (world_with (sample_credentials [])) /\
    trace w'
    = (trace (world_with (sample_credentials [])) ++
       [Post token_url (JStr "my-id") (JStr "my-secret")])%list.
Proof.
  apply (unusable_token_answer_raises
           (sample_env 1000 19730 (mkResponse 200 "[]" (Some (JList []))))
           (init "anbimaAuth.json") (world_with (sample_credentials []))
           (sample_credentials [])).
  - reflexivity.
  - reflexivity.
  - reflexivity.
  - left. apply (stale_no_access_token _ _ []); reflexivity.
  - left. reflexivity.
  - intros data. discriminate.
Defined.

Lemma generate_token_effects_witness :
  token_file (set_token (JStr "cached-token") (init "anbimaAuth.json"))
  = token_file (init "anbimaAuth.json") /\
  (forall p, p <> token_file (init "anbimaAuth.json") ->
     fs (set_global_client_id (JStr "my-id") (world_with sample_cached)) !! p
     = fs (world_with sample_cached) !! p) /\
  (forall e, @Ok unit tt = Raise e ->
     fs (set_global_client_id (JStr "my-id") (world_with sample_cached))
     = fs (world_with sample_cached)) /\
  exists evs,
    trace (set_global_client_id (JStr "my-id") (world_with sample_cached))
    = (trace (world_with sample_cached) ++ evs)%list /\
    token_effects (token_file (init "anbimaAuth.json")) (Ok tt) evs.
Proof.
  apply (generate_token_effects
           (sample_env 1000 19730 (mkResponse 500 "" None))
           (init "anbimaAuth.json")
           (set_token (JStr "cached-token") (init "anbimaAuth.json"))
           (world_with sample_cached)
           (set_global_client_id (JStr "my-id") (world_with sample_cached))
           (Ok tt)).
  vm_compute. reflexivity.
Defined.

Lemma get_data_by_date_effects_witness :
  fs (emit (HttpGet (url_for 19725) "my-id" "cached-token")
        (set_global_client_id (JStr "my-id") fresh_world))
  = fs (set_global_client_id (JStr "my-id") fresh_world) /\
  global_client_id
    (emit (HttpGet (url_for 19725) "my-id" "cached-token")
       (set_global_client_id (JStr "my-id") fresh_world))
  = global_client_id (set_global_client_id (JStr "my-id") fresh_world) /\
  (truthy (token sample_api) = false ->
     Ok (PList []) = Raise TokenNotGenerated /\
     trace (emit (HttpGet (url_for 19725) "my-id" "cached-token")
              (set_global_client_id (JStr "my-id") fresh_world))
     = trace (set_global_client_id (JStr "my-id") fresh_world)) /\
  (trace (emit (HttpGet (url_for 19725) "my-id" "cached-token")
            (set_global_client_id (JStr "my-id") fresh_world))
   = trace (set_global_client_id (JStr "my-id") fresh_world) \/
   exists cid tok,
     token sample_api = JStr tok /\
     trace (emit (HttpGet (url_for 19725) "my-id" "cached-token")
              (set_global_client_id (JStr "my-id") fresh_world))
     = (trace (set_global_client_id (JStr "my-id") fresh_world) ++
        [HttpGet (url_request ++ "?data=" ++ "2024-01-03") cid tok])%list) /\
  (forall data, Ok (PList []) = Ok data ->
     status_code
       (data_endpoint (sample_env 1000 19730 (mkResponse 500 "" None))
          (url_request ++ "?data=" ++ "2024-01-03")) = 200%Z /\
     body
       (data_endpoint (sample_env 1000 19730 (mkResponse 500 "" None))
          (url_request ++ "?data=" ++ "2024-01-03")) = Some data /\
     trace (emit (HttpGet (url_for 19725) "my-id" "cached-token")
              (set_global_client_id (JStr "my-id") fresh_world))
     <> trace (set_global_client_id (JStr "my-id") fresh_world)).
Proof.
  apply (get_data_by_date_effects
           (sample_env 1000 19730 (mkResponse 500 "" None)) sample_api
           (set_global_client_id (JStr "my-id") fresh_world)
           (emit (HttpGet (url_for 19725) "my-id" "cached-token")
              (set_global_client_id (JStr "my-id") fresh_world))
           url_request "2024-01-03" (Ok (PList []))).
  vm_compute. reflexivity.
Defined.

Lemma fetch_loop_effects_witness :
  fs (emit (HttpGet (url_for 19727) "my-id" "cached-token")
        (emit (HttpGet (url_for 19726) "my-id" "cached-token")
           (set_global_client_id (JStr "my-id") fresh_world)))
  = fs (set_global_client_id (JStr "my-id") fresh_world) /\
  global_client_id
    (emit (HttpGet (url_for 19727) "my-id" "cached-token")
       (emit (HttpGet (url_for 19726) "my-id" "cached-token")
          (set_global_client_id (JStr "my-id") fresh_world)))
  = global_client_id (set_global_client_id (JStr "my-id") fresh_world) /\
  exists (k : nat) (evs : list event),
    (k <= length [19726; 19727; 19730]%Z)%nat /\
    trace (emit (HttpGet (url_for 19727) "my-id" "cached-token")
             (emit (HttpGet (url_for 19726) "my-id" "cached-token")
                (set_global_client_id (JStr "my-id") fresh_world)))
    = (trace (set_global_client_id (JStr "my-id") fresh_world) ++ evs)%list /\
    length evs = k /\
    requested_urls evs = map url_for (firstn k [19726; 19727; 19730]%Z) /\
    (forall res,
       @Raise (option DataFrame) (DataRequestFailed 404 "Not Found") = Ok res ->
       k = length [19726; 19727; 19730]%Z).
Proof.
  apply (fetch_loop_effects
           (sample_env 1000 19730 (mkResponse 500 "" None)) sample_api
           [19726; 19727; 19730]%Z None
           (set_global_client_id (JStr "my-id") fresh_world)
           (emit (HttpGet (url_for 19727) "my-id" "cached-token")
              (emit (HttpGet (url_for 19726) "my-id" "cached-token")
                 (set_global_client_id (JStr "my-id") fresh_world)))
           (Raise (DataRequestFailed 404 "Not Found"))).
  vm_compute. reflexivity.
Defined.

Lemma main_prints_volatility_witness :
  exists (w2 : World) (result_df : DataFrame) (sigma : gmap string Np.float),
    rows result_df
    = flat_map (fun d => rows_for d (sample_payload d))
        [19724; 19725; 19726]%Z /\
    volatility result_df "LTN" = Ok sigma /\
    main (sample_env 1000 19726 (mkResponse 500 "" None)) sample_calendar 2
      "anbimaAuth.json" (world_with sample_cached)
    = (w2, Ok tt) /\
    fs w2 = fs (set_global_client_id (JStr "my-id") (world_with sample_cached)) /\
    trace w2
    = (trace (set_global_client_id (JStr "my-id") (world_with sample_cached)) ++
       sent "my-id" "cached-token" [19724; 19725; 19726]%Z ++
       [Print sigma])%list.
Proof.
  apply (main_prints_volatility
           (sample_env 1000 19726 (mkResponse 500 "" None)) sample_calendar 2
           "anbimaAuth.json" (world_with sample_cached)
           (set_global_client_id (JStr "my-id") (world_with sample_cached))
           sample_api "cached-token" "my-id" sample_payload
           [19724; 19725; 19726]%Z 19724%Z).
  - vm_compute. reflexivity.
  - reflexivity.
  - discriminate.
  - reflexivity.
  - vm_compute. reflexivity.
  - intros d [<-|[<-|[<-|[]]]]; split; reflexivity.
  - left. reflexivity.
  - discriminate.
Defined.

Lemma main_without_records_raises_witness :
  exists w2 : World,
    main (empty_env 1000 19726) sample_calendar 2 "anbimaAuth.json"
      (world_with sample_cached)
    = (w2, Raise (KeyError "tipo_titulo")) /\
    trace w2
    = (trace (set_global_client_id (JStr "my-id") (world_with sample_cached)) ++
       sent "my-id" "cached-token" [19724; 19725; 19726]%Z)%list.
Proof.
  apply (main_without_records_raises
           (empty_env 1000 19726) sample_calendar 2
           "anbimaAuth.json" (world_with sample_cached)
           (set_global_client_id (JStr "my-id") (world_with sample_cached))
           sample_api "cached-token" "my-id" (fun _ => PList [])
           [19724; 19725; 19726]%Z).
  - vm_compute. reflexivity.
  - reflexivity.
  - discriminate.
  - reflexivity.
  - vm_compute. reflexivity.
  - discriminate.
  - intros d _. repeat split; reflexivity.
Defined.

Lemma volatility_keys_witness :
  volatility (two_rate_table "LTN" "2030-01-01" "2024-01-02" "2024-01-03")
    "LTN" = Ok {[ "2030-01-01" := Np.NaN ]} /\
  forall m,
    is_Some (({[ "2030-01-01" := Np.NaN ]} : gmap string Np.float) !! m) <->
    exists r,
      In r (rows (two_rate_table "LTN" "2030-01-01" "2024-01-02"
                    "2024-01-03")) /\
      tipo_titulo r = "LTN" /\ data_vencimento r = m.
Proof.
  split; [apply two_rate_table_volatility|].
  apply (volatility_keys
           (two_rate_table "LTN" "2030-01-01" "2024-01-02" "2024-01-03")
           "LTN").
  apply two_rate_table_volatility.
Defined.

Lemma volatility_reads_only_observations_witness :
  volatility sample_frame_a "LTN" = volatility sample_frame_b "LTN".
Proof.
  apply volatility_reads_only_observations; reflexivity.
Defined.

Lemma volatility_two_observations_nan_witness :
  exists sigma : gmap string Np.float,
    volatility sample_frame_a "LTN" = Ok sigma /\
    sigma !! "2030-01-01" = Some Np.NaN.
Proof.
  apply volatility_two_observations_nan.
  - apply frame_ok_of_records.
  - reflexivity.
Defined.

Lemma volatility_returns_iff_columns_witness :
  ((exists sigma, volatility (empty_fetch_table "2024-01-02") "LTN" = Ok sigma)
   <->
   has_column (empty_fetch_table "2024-01-02") "tipo_titulo" = true /\
   has_column (empty_fetch_table "2024-01-02") "data_vencimento" = true) /\
  (has_column (empty_fetch_table "2024-01-02") "tipo_titulo" = false ->
   volatility (empty_fetch_table "2024-01-02") "LTN"
   = Raise (KeyError "tipo_titulo")) /\
  (has_column (empty_fetch_table "2024-01-02") "tipo_titulo" = true ->
   has_column (empty_fetch_table "2024-01-02") "data_vencimento" = false ->
   volatility (empty_fetch_table "2024-01-02") "LTN"
   = Raise (KeyError "data_vencimento")).
Proof.
  apply volatility_returns_iff_columns.
  intros Hne. exfalso. apply Hne. reflexivity.
Defined.

Lemma static_rates_have_zero_volatility_witness :
  exists sigma : gmap string Np.float,
    volatility static_table "LTN" = Ok sigma /\
    sigma !! "2030-01-01" = Some (Np.Fin 0).
Proof.
  apply (static_rates_have_zero_volatility static_table "LTN" "2030-01-01" 5).
  - apply frame_ok_of_records.
  - simpl. lia.
  - repeat constructor.
  - lra.
Defined.

Lemma business_day_run_length_witness :
  exists ds,
    dates_in_range sample_calendar 19741 10 = Ok ds /\
    length ds = (Z.to_nat 10 + 1)%nat /\
    last ds = Some 19741%Z.
Proof.
  apply business_day_run_length.
  - lia.
  - reflexivity.
  - reflexivity.
  - vm_compute. lia.
Defined.
